(** * Tiered access policy of the RustChain node API patch

    A shallow embedding of [node/security_fix_patch.py]: the optional
    authentication decorator [public_endpoint] and the three handlers
    [api_miners], [api_wallet_balance] and [get_epoch], followed by the
    properties of the access policy that they implement.

    Conventions of the embedding.
    - Python [str] values are Rocq strings holding their UTF-8 bytes;
      case conversion is the ASCII one (bytes above 127 are left alone),
      white space is the Unicode white space of [str.strip].
    - Python [int] is [Z].  Python [float] values are carried by their
      exact rational value in [Q]; binary64 rounding is not modelled.
    - [None] is the [None] of an option type.
    - A handler runs in a small state-and-exception monad whose state
      records the SQL statements executed and the epoch gauge. *)

From Stdlib Require Import ZArith QArith Ascii String List Bool Lia.
From Stdlib Require Import Sorted Permutation.
From stdpp Require Import base option gmap strings list fin_maps.
Import ListNotations.

Local Open Scope string_scope.
Local Open Scope Z_scope.

(** ** Python strings *)

Module PyStr.

Definition is_upper (c : ascii) : bool :=
  let n := N_of_ascii c in (65 <=? n)%N && (n <=? 90)%N.

Definition is_lower (c : ascii) : bool :=
  let n := N_of_ascii c in (97 <=? n)%N && (n <=? 122)%N.

Definition lower_char (c : ascii) : ascii :=
  if is_upper c then ascii_of_N (N_of_ascii c + 32) else c.

Definition upper_char (c : ascii) : ascii :=
  if is_lower c then ascii_of_N (N_of_ascii c - 32) else c.

(** [s.lower()] and [s.upper()] *)
Fixpoint lower (s : string) : string :=
  match s with
  | EmptyString => EmptyString
  | String c s' => String (lower_char c) (lower s')
  end.

Fixpoint upper (s : string) : string :=
  match s with
  | EmptyString => EmptyString
  | String c s' => String (upper_char c) (upper s')
  end.

(** [s.startswith(p)] *)
Fixpoint startswith (p s : string) : bool :=
  match p, s with
  | EmptyString, _ => true
  | String _ _, EmptyString => false
  | String a p', String b s' => Ascii.eqb a b && startswith p' s'
  end.

(** [needle in hay] on strings: substring test *)
Fixpoint contains (needle hay : string) : bool :=
  startswith needle hay ||
  match hay with
  | EmptyString => false
  | String _ hay' => contains needle hay'
  end.

(** [x in (a, b, ...)] on a tuple of strings *)
Definition in_tuple (x : string) (t : list string) : bool :=
  existsb (String.eqb x) t.

(** [str.isspace] on one ASCII character: tab, line feed, vertical tab,
    form feed, carriage return, the four separators 28..31 and space. *)
Definition is_space (c : ascii) : bool :=
  let n := N_of_ascii c in
  ((9 <=? n)%N && (n <=? 13)%N) || ((28 <=? n)%N && (n <=? 32)%N).

(** A string stands for a Python [str] through its UTF-8 bytes.  The
    white space of [str.strip()] beyond ASCII is U+0085 and U+00A0, two
    bytes each (C2 85, C2 A0), *)
Definition is_space2 (b1 b2 : ascii) : bool :=
  let n1 := N_of_ascii b1 in
  let n2 := N_of_ascii b2 in
  (n1 =? 194)%N && ((n2 =? 133)%N || (n2 =? 160)%N).

(** and the three-byte characters U+1680 (E1 9A 80), U+2000..U+200A
    (E2 80 80..8A), U+2028, U+2029, U+202F (E2 80 A8, A9, AF), U+205F
    (E2 81 9F) and U+3000 (E3 80 80). *)
Definition is_space3 (b1 b2 b3 : ascii) : bool :=
  let n1 := N_of_ascii b1 in
  let n2 := N_of_ascii b2 in
  let n3 := N_of_ascii b3 in
  ((n1 =? 225)%N && (n2 =? 154)%N && (n3 =? 128)%N)
  || ((n1 =? 226)%N && (n2 =? 128)%N
      && (((128 <=? n3)%N && (n3 <=? 138)%N)
          || (n3 =? 168)%N || (n3 =? 169)%N || (n3 =? 175)%N))
  || ((n1 =? 226)%N && (n2 =? 129)%N && (n3 =? 159)%N)
  || ((n1 =? 227)%N && (n2 =? 128)%N && (n3 =? 128)%N).

(** [t] is exactly one white-space character *)
Definition is_space_char (t : string) : bool :=
  match t with
  | String b1 EmptyString => is_space b1
  | String b1 (String b2 EmptyString) => is_space2 b1 b2
  | String b1 (String b2 (String b3 EmptyString)) => is_space3 b1 b2 b3
  | _ => false
  end.

(** [s.lstrip()]: white-space characters are removed from the left, one,
    two or three bytes at a time. *)
Fixpoint lstrip (s : string) : string :=
  match s with
  | EmptyString => EmptyString
  | String b1 s1 =>
      if is_space b1 then lstrip s1
      else
        match s1 with
        | EmptyString => s
        | String b2 s2 =>
            if is_space2 b1 b2 then lstrip s2
            else
              match s2 with
              | EmptyString => s
              | String b3 s3 => if is_space3 b1 b2 b3 then lstrip s3 else s
              end
        end
  end.

(** [s.rstrip()]: a byte is kept unless, with what survives to its
    right, it makes up one white-space character. *)
Fixpoint rstrip (s : string) : string :=
  match s with
  | EmptyString => EmptyString
  | String c s' =>
      let t := String c (rstrip s') in
      if is_space_char t then EmptyString else t
  end.

(** [s.strip()] *)
Definition strip (s : string) : string := rstrip (lstrip s).

(** truthiness of a string: non-empty *)
Definition truthy (s : string) : bool :=
  match s with EmptyString => false | String _ _ => true end.

(** [o or d] where [o] is a string or [None] and [d] a string *)
Definition or_else (o : option string) (d : string) : string :=
  match o with
  | Some s => if truthy s then s else d
  | None => d
  end.

End PyStr.

(** ** Hardware classification and antiquity multiplier (api_miners, lines 52-69) *)

Module Hardware.
Import PyStr.

(** lines 59-69: the chain of tests on the lower-cased family [fam] and
    architecture [arch]; [title_arch] keeps the original case. *)
Definition hw_label (fam arch title_arch : string) : string :=
  if contains "powerpc" fam || contains "ppc" fam then
    if in_tuple arch ["g3"; "g4"; "g5"]
    then "PowerPC " ++ upper title_arch ++ " (Vintage)"
    else "PowerPC (Vintage)"
  else if contains "apple" (lower fam)
          || in_tuple arch ["m1"; "m2"; "m3"; "apple_silicon"] then
    "Apple Silicon (Modern)"
  else if contains "x86" (lower fam) || contains "modern" (lower fam) then
    if contains "retro" arch || contains "core2" arch
    then "x86 Retro (Vintage)"
    else "x86-64 (Modern)"
  else "Unknown/Other".

(** lines 52-56 and 59-69: [hw_type] of one row *)
Definition hw_type (device_family device_arch : option string) : string :=
  let arch := lower (or_else device_arch "unknown") in
  let fam := lower (or_else device_family "unknown") in
  let title_arch := or_else device_arch "unknown" in
  hw_label fam arch title_arch.

(** [HARDWARE_WEIGHTS] is a constant of the server that the patch only
    reads: a dictionary of dictionaries of floats. *)
Abbreviation weights := (gmap string (gmap string Q)).

(** [d.get(k, default)] *)
Definition dict_get {V} (d : gmap string V) (k : string) (default : V) : V :=
  match d !! k with
  | Some v => v
  | None => default
  end.

(** line 57:
    [HARDWARE_WEIGHTS.get(title_fam, {}).get(title_arch,
       HARDWARE_WEIGHTS.get(title_fam, {}).get("default", 1.0))] *)
Definition mult (HARDWARE_WEIGHTS : weights)
    (device_family device_arch : option string) : Q :=
  let title_fam := or_else device_family "unknown" in
  let title_arch := or_else device_arch "unknown" in
  dict_get (dict_get HARDWARE_WEIGHTS title_fam ∅) title_arch
    (dict_get (dict_get HARDWARE_WEIGHTS title_fam ∅) "default" 1%Q).

(** The four categories of the specification and the labels of each. *)
Inductive category := PowerPC_Vintage | Apple_Silicon | X86 | Unknown_Other.

Definition labels (c : category) : list string :=
  match c with
  | PowerPC_Vintage =>
      ["PowerPC (Vintage)"; "PowerPC G3 (Vintage)";
       "PowerPC G4 (Vintage)"; "PowerPC G5 (Vintage)"]
  | Apple_Silicon => ["Apple Silicon (Modern)"]
  | X86 => ["x86 Retro (Vintage)"; "x86-64 (Modern)"]
  | Unknown_Other => ["Unknown/Other"]
  end.

(** The rules as the specification words them: a null component is
    replaced by "unknown", both are lower-cased, and the first rule
    that matches decides. *)
Definition spec_default (o : option string) : string :=
  match o with Some s => s | None => "unknown" end.

Definition spec_rules (f a : string) : category :=
  if contains "powerpc" f || contains "ppc" f then PowerPC_Vintage
  else if contains "apple" f || in_tuple a ["m1"; "m2"; "m3"; "apple_silicon"]
  then Apple_Silicon
  else if contains "x86" f || contains "modern" f then X86
  else Unknown_Other.

Definition spec_category (family arch : option string) : category :=
  spec_rules (lower (spec_default family)) (lower (spec_default arch)).

(** The three-level fallback as the specification words it. *)
Definition spec_multiplier (W : weights) (family arch : string) : Q :=
  match W !! family with
  | Some per_family =>
      match per_family !! arch with
      | Some w => w
      | None =>
          match per_family !! "default" with
          | Some w => w
          | None => 1%Q
          end
      end
  | None => 1%Q
  end.

End Hardware.

(** ** Python values, exceptions and the request monad *)

Module Py.

(** Values that the handlers put in a response (what [jsonify] takes).
    A dictionary keeps its insertion order. *)
#[warnings="-register-all"]
Inductive json :=
| JNull
| JBool (b : bool)
| JInt (z : Z)
| JFloat (q : Q)
| JStr (s : string)
| JArr (items : list json)
| JObj (fields : list (string * json)).

(** [d[k] = v] on an insertion-ordered dictionary *)
Fixpoint dict_set (d : list (string * json)) (k : string) (v : json)
  : list (string * json) :=
  match d with
  | [] => [(k, v)]
  | (k', v') :: d' =>
      if String.eqb k' k then (k', v) :: d' else (k', v') :: dict_set d' k v
  end.

Fixpoint dict_lookup (d : list (string * json)) (k : string) : option json :=
  match d with
  | [] => None
  | (k', v) :: d' => if String.eqb k' k then Some v else dict_lookup d' k
  end.

Definition keys (d : list (string * json)) : list string := map fst d.

(** The exceptions that the modelled code can meet; all of them derive
    from [Exception]. *)
Inductive exn :=
| NameError (name : string)
| TypeError
| ZeroDivisionError
| DatabaseError (msg : string).

Inductive result (A : Type) :=
| Return (a : A)
| Raise (e : exn).
Arguments Return {A} a.
Arguments Raise {A} e.

(** The SQL statements of the patch, with their bound parameters. *)
Inductive statement :=
| SelectRecentAttest (since : Z)
| SelectFirstAttest (miner : string)
| SelectBalance (miner_id : string)
| CountEnrolled (epoch : Z).

(** What a request changes: the statements executed so far (oldest
    first) and the value of the epoch gauge. *)
Record world := {
  executed : list statement;
  epoch_gauge : option Z
}.

Definition M (A : Type) : Type := world -> result A * world.

Definition ret {A} (a : A) : M A := fun w => (Return a, w).

Definition raise {A} (e : exn) : M A := fun w => (Raise e, w).

Definition bind {A B} (m : M A) (k : A -> M B) : M B :=
  fun w =>
    match m w with
    | (Return a, w') => k a w'
    | (Raise e, w') => (Raise e, w')
    end.

(** [try: m  except Exception: h] *)
Definition try_except {A} (m : M A) (h : exn -> M A) : M A :=
  fun w =>
    match m w with
    | (Return a, w') => (Return a, w')
    | (Raise e, w') => h e w'
    end.

(** the world after the statements [l] were executed *)
Definition logged (w : world) (l : list statement) : world :=
  {| executed := executed w ++ l; epoch_gauge := epoch_gauge w |}.

(** running a statement whose answer is [answer]: the statement is
    recorded, then the answer is delivered *)
Definition execute {A} (s : statement) (answer : result A) : M A :=
  fun w =>
    (answer, logged w [s]).

(** [epoch_gauge.set(v)] *)
Definition gauge_set (v : Z) : M unit :=
  fun w => (Return tt, {| executed := executed w; epoch_gauge := Some v |}).

(** [int / int]: the quotient, or [ZeroDivisionError] *)
Definition truediv (a b : Z) : M Q :=
  if b =? 0 then raise ZeroDivisionError
  else ret (inject_Z a / inject_Z b)%Q.

End Py.

Declare Scope py_scope.
Delimit Scope py_scope with py.
Notation "x <- m ;; k" := (Py.bind m (fun x => k))
  (at level 100, m at next level, right associativity) : py_scope.
Notation "m ;;; k" := (Py.bind m (fun _ => k))
  (at level 100, right associativity) : py_scope.

(** ** The collaborators of the patch *)

Module Server.
Import Py.

(** One row of [miner_attest_recent] as the first query of [api_miners]
    selects it. *)
Record attest_row := {
  miner : string;
  ts_ok : Z;
  device_family : option string;
  device_arch : option string;
  entropy_score : option Q
}.

(** The answers of the database to the four statements.  [fetchone]
    gives [None] when there is no row; a selected column may be NULL. *)
Record connection := {
  recent_attest : Z -> result (list attest_row);
  first_attest_of : string -> result (option (option Z));
  balance_of : string -> result (option (option Z));
  enrolled_count : Z -> result Z
}.

(** Constants and functions of the server that the patch reads. *)
Record config := {
  ADMIN_KEY : option string;
  UNIT : Z;
  EPOCH_SLOTS : Z;
  PER_EPOCH_RTC : json;
  HARDWARE_WEIGHTS : Hardware.weights;
  slot_to_epoch : Z -> Z
}.

(** What one request observes of the outside: the database, the clock
    ([int(time.time())]) and the value of [current_slot()]. *)
Record environment := {
  conn : connection;
  time_now : Z;
  current_slot : Z
}.

(** The Flask request: headers, query arguments and the attribute that
    the decorator attaches. *)
Record request := {
  headers : list (string * string);
  args : list (string * string);
  _is_admin : option bool
}.

(** [request.headers.get(name)]: header names compare without case *)
Fixpoint headers_get (h : list (string * string)) (name : string) : option string :=
  match h with
  | [] => None
  | (n, v) :: h' =>
      if String.eqb (PyStr.lower n) (PyStr.lower name) then Some v
      else headers_get h' name
  end.

(** [request.args.get(name, default)] *)
Fixpoint args_get (a : list (string * string)) (name default : string) : string :=
  match a with
  | [] => default
  | (n, v) :: a' => if String.eqb n name then v else args_get a' name default
  end.

(** [getattr(request, '_is_admin', False)] *)
Definition getattr_is_admin (r : request) (default : bool) : bool :=
  match _is_admin r with
  | Some b => b
  | None => default
  end.

(** [request._is_admin = b] *)
Definition set_is_admin (r : request) (b : bool) : request :=
  {| headers := headers r; args := args r; _is_admin := Some b |}.

(** truthiness of [key], a string or [None] *)
Definition key_truthy (key : option string) : bool :=
  match key with
  | Some s => PyStr.truthy s
  | None => false
  end.

(** [key == ADMIN_KEY] between two values that are strings or [None] *)
Definition key_eq (key admin_key : option string) : bool :=
  match key, admin_key with
  | Some a, Some b => String.eqb a b
  | None, None => true
  | _, _ => false
  end.

End Server.

(** ** The patch: decorator and handlers *)

Module Node.
Import Py Server.
Local Open Scope py_scope.

(** A view function: it reads the request and answers with a body and a
    status code. *)
Definition response : Type := json * Z.
Definition view : Type := request -> M response.

(** [jsonify(v)] alone answers with status 200; [jsonify(v), code]
    answers with [code]. *)
Definition jsonify (v : json) : response := (v, 200).
Definition jsonify_status (v : json) (code : Z) : response := (v, code).

Section Handlers.
Variable cfg : config.
Variable env : environment.

(** *** public_endpoint (lines 7-22) *)

(** lines 16-17: [key = request.headers.get("X-API-Key")],
    [is_admin = key == ADMIN_KEY if key else False] *)
Definition decorator_is_admin (req : request) : bool :=
  let key := headers_get (headers req) "X-API-Key" in
  if key_truthy key then key_eq key (ADMIN_KEY cfg) else false.

(** lines 15-21: a call of the inner function when the name [f] of
    line 21 denotes the view [f]. *)
Definition decorated (f : view) : view :=
  fun req =>
    let is_admin := decorator_is_admin req in
    let req := set_is_admin req is_admin in
    f req.

(** Reading the name [f] inside [public_endpoint]: it is neither a
    parameter nor assigned in the function ([require_auth], [wraps] and
    [decorated] are its only local names), so it is looked up among the
    names [G] of the module (globals, then builtins). *)
Definition load_name (G : gmap string view) (name : string) : result view :=
  match G !! name with
  | Some v => Return v
  | None => Raise (NameError name)
  end.

(** lines 15-21 as the function object that [public_endpoint] returns:
    line 21 reads the global name [f] each time the function is called,
    in the module as it is at that moment ([G']), after the flag was
    set. *)
Definition closure : Type := gmap string view -> view.

Definition decorated_closure : closure :=
  fun G' req =>
    let is_admin := decorator_is_admin req in
    let req := set_is_admin req is_admin in
    match load_name G' "f" with
    | Return f => f req
    | Raise e => raise e
    end.

(** lines 7-22: the call [public_endpoint(require_auth)] in a module
    whose names are [G].  [wraps(f)] (line 14) is evaluated when
    [decorated] is defined, before anything is returned; [wraps] itself
    only copies the name and docstring of [f] onto the function that is
    returned.  What line 29 then does with the result (it calls it with
    the handler as argument) is not part of this function. *)
Definition public_endpoint (G : gmap string view) (require_auth : bool)
  : result closure :=
  match load_name G "f" with
  | Return _ => Return decorated_closure
  | Raise e => Raise e
  end.

(** *** api_miners (lines 30-97) *)

(** lines 71-78: the dictionary built for every row *)
Definition miner_data (r : attest_row) : list (string * json) :=
  let hw_type := Hardware.hw_type (device_family r) (device_arch r) in
  let mult := Hardware.mult (HARDWARE_WEIGHTS cfg) (device_family r) (device_arch r) in
  [ ("miner", JStr (miner r));
    ("last_attest", JInt (ts_ok r));
    ("device_family", match device_family r with Some s => JStr s | None => JNull end);
    ("device_arch", match device_arch r with Some s => JStr s | None => JNull end);
    ("hardware_type", JStr hw_type);
    ("antiquity_multiplier", JFloat mult) ].

(** line 88: [int(row2[0]) if row2 and row2[0] else None]; a row is
    truthy, an integer is truthy when it is not zero *)
Definition first_attest_value (row2 : option (option Z)) : option Z :=
  match row2 with
  | Some (Some v) => if v =? 0 then None else Some v
  | _ => None
  end.

(** lines 83-90: the secondary query under [try ... except Exception] *)
Definition first_attest (m : string) : M (option Z) :=
  try_except
    (row2 <- execute (SelectFirstAttest m) (first_attest_of (conn env) m) ;;
     ret (first_attest_value row2))
    (fun _ => ret None).

(** line 93: [r["entropy_score"] or 0.0] *)
Definition entropy_or_zero (e : option Q) : Q :=
  match e with
  | Some q => if Qeq_bool q 0 then 0%Q else q
  | None => 0%Q
  end.

(** lines 52-95: the body of the loop for one row *)
Definition miner_entry (is_authenticated : bool) (r : attest_row) : M json :=
  let d := miner_data r in
  if is_authenticated then
    fa <- first_attest (miner r) ;;
    let d := dict_set d "first_attest"
               (match fa with Some v => JInt v | None => JNull end) in
    let d := dict_set d "entropy_score" (JFloat (entropy_or_zero (entropy_score r))) in
    ret (JObj d)
  else ret (JObj d).

(** lines 50-95: [miners = []; for r in rows: ...; miners.append(miner_data)] *)
Fixpoint for_rows (is_authenticated : bool) (rows : list attest_row)
    (miners : list json) : M (list json) :=
  match rows with
  | [] => ret miners
  | r :: rows' =>
      d <- miner_entry is_authenticated r ;;
      for_rows is_authenticated rows' (miners ++ [d])
  end.

(** lines 30-97.  Opening the connection, the row factory and the cursor
    are not failure points of the model: the first thing that can raise
    is the primary query. *)
Definition api_miners : view :=
  fun req =>
    let now := time_now env in
    let is_authenticated := getattr_is_admin req false in
    rows <- execute (SelectRecentAttest (now - 3600))
              (recent_attest (conn env) (now - 3600)) ;;
    miners <- for_rows is_authenticated rows [] ;;
    ret (jsonify (JArr miners)).

(** *** api_wallet_balance (lines 104-126) *)

(** lines 110-111: the request passes when [key != ADMIN_KEY] is false *)
Definition balance_is_admin (req : request) : bool :=
  let key := headers_get (headers req) "X-API-Key" in
  key_eq key (ADMIN_KEY cfg).

Definition authentication_required : json :=
  JObj [ ("ok", JBool false);
         ("reason", JStr "authentication_required");
         ("message", JStr "Provide X-API-Key header with valid admin key") ].

Definition miner_id_required : json :=
  JObj [ ("ok", JBool false); ("error", JStr "miner_id required") ].

(** line 121: [int(row[0]) if row else 0]; [int(None)] is a [TypeError] *)
Definition balance_amount (row : option (option Z)) : M Z :=
  match row with
  | Some (Some v) => ret v
  | Some None => raise TypeError
  | None => ret 0
  end.

(** lines 104-126 *)
Definition api_wallet_balance : view :=
  fun req =>
    if negb (balance_is_admin req) then
      ret (jsonify_status authentication_required 401)
    else
      let miner_id := PyStr.strip (args_get (args req) "miner_id" "") in
      if negb (PyStr.truthy miner_id) then
        ret (jsonify_status miner_id_required 400)
      else
        row <- execute (SelectBalance miner_id) (balance_of (conn env) miner_id) ;;
        amt <- balance_amount row ;;
        rtc <- truediv amt (UNIT cfg) ;;
        ret (jsonify (JObj [ ("miner_id", JStr miner_id);
                             ("amount_i64", JInt amt);
                             ("amount_rtc", JFloat rtc) ])).

(** *** get_epoch (lines 133-163) *)

(** lines 138-139 *)
Definition epoch_is_authenticated (req : request) : bool :=
  let key := headers_get (headers req) "X-API-Key" in
  if key_truthy key then key_eq key (ADMIN_KEY cfg) else false.

(** lines 133-163; [current_slot()] and [slot_to_epoch] are functions of
    the server, taken as total. *)
Definition get_epoch : view :=
  fun req =>
    let is_authenticated := epoch_is_authenticated req in
    let slot := current_slot env in
    let epoch := slot_to_epoch cfg slot in
    gauge_set epoch ;;;
    enrolled <- execute (CountEnrolled epoch) (enrolled_count (conn env) epoch) ;;
    let response :=
      [ ("epoch", JInt epoch);
        ("slot", JInt slot);
        ("blocks_per_epoch", JInt (EPOCH_SLOTS cfg)) ] in
    if is_authenticated then
      let response := dict_set response "epoch_pot" (PER_EPOCH_RTC cfg) in
      let response := dict_set response "enrolled_miners" (JInt enrolled) in
      ret (jsonify (JObj response))
    else ret (jsonify (JObj response)).

End Handlers.

End Node.

(** ** The access policy of the specification *)

Module Policy.
Import Server.

Inductive access_level := anonymous | admin.

(** "admin iff the presented credential is non-empty and equals the
    configured secret; absence or mismatch gives anonymous" *)
Definition classify (secret key : option string) : access_level :=
  match key with
  | Some k => if bool_decide (k ≠ "" ∧ secret = Some k) then admin else anonymous
  | None => anonymous
  end.

(** the level that a handler's boolean stands for *)
Definition level_of (flag : bool) : access_level :=
  if flag then admin else anonymous.

(** the credential that a request presents *)
Definition credential (req : request) : option string :=
  headers_get (headers req) "X-API-Key".

(** The field partition of the two endpoints with optional
    authentication. *)
Definition miners_public : list string :=
  ["miner"; "last_attest"; "device_family"; "device_arch";
   "hardware_type"; "antiquity_multiplier"].
Definition miners_restricted : list string := ["first_attest"; "entropy_score"].
Definition epoch_public : list string := ["epoch"; "slot"; "blocks_per_epoch"].
Definition epoch_restricted : list string := ["epoch_pot"; "enrolled_miners"].

(** [full] is the object [base] followed by fields named [extra], in
    this order, and nothing else. *)
Definition extends_with (extra : list string) (base full : Py.json) : Prop :=
  match base, full with
  | Py.JObj b, Py.JObj f => ∃ added, f = (b ++ added)%list ∧ Py.keys added = extra
  | _, _ => False
  end.

(** the names of the fields of an object *)
Definition field_names (j : Py.json) : list string :=
  match j with
  | Py.JObj d => Py.keys d
  | _ => []
  end.

(** the value of a field of an object *)
Definition field (j : Py.json) (k : string) : option Py.json :=
  match j with
  | Py.JObj d => Py.dict_lookup d k
  | _ => None
  end.

(** What the secondary query of [api_miners] contributes for miner [m]:
    the first attestation when the query answers with a non-zero
    integer, null otherwise. *)
Definition first_attest_json (c : connection) (m : string) : Py.json :=
  match first_attest_of c m with
  | Py.Return row2 =>
      match Node.first_attest_value row2 with
      | Some v => Py.JInt v
      | None => Py.JNull
      end
  | Py.Raise _ => Py.JNull
  end.

(** the two restricted fields of one miner *)
Definition miner_restricted_fields (c : connection) (r : attest_row)
  : list (string * Py.json) :=
  [ ("first_attest", first_attest_json c (miner r));
    ("entropy_score", Py.JFloat (Node.entropy_or_zero (entropy_score r))) ].

Definition miner_anonymous (cfg : config) (r : attest_row) : Py.json :=
  Py.JObj (Node.miner_data cfg r).

Definition miner_full (cfg : config) (c : connection) (r : attest_row) : Py.json :=
  Py.JObj (Node.miner_data cfg r ++ miner_restricted_fields c r)%list.

(** the object and the statements that one row contributes to the
    miners list, for the value of the authentication flag *)
Definition entry_of (cfg : config) (c : connection) (is_authenticated : bool)
    (r : attest_row) : Py.json :=
  if is_authenticated then miner_full cfg c r else miner_anonymous cfg r.

Definition statements_of (is_authenticated : bool) (rows : list attest_row)
  : list Py.statement :=
  if is_authenticated then map (fun r => Py.SelectFirstAttest (miner r)) rows else [].

(** the public part of the epoch answer *)
Definition epoch_anonymous (cfg : config) (env : environment) : Py.json :=
  Py.JObj [ ("epoch", Py.JInt (slot_to_epoch cfg (current_slot env)));
            ("slot", Py.JInt (current_slot env));
            ("blocks_per_epoch", Py.JInt (EPOCH_SLOTS cfg)) ].

Definition epoch_full (cfg : config) (env : environment) (enrolled : Z) : Py.json :=
  Py.JObj [ ("epoch", Py.JInt (slot_to_epoch cfg (current_slot env)));
            ("slot", Py.JInt (current_slot env));
            ("blocks_per_epoch", Py.JInt (EPOCH_SLOTS cfg));
            ("epoch_pot", PER_EPOCH_RTC cfg);
            ("enrolled_miners", Py.JInt enrolled) ].

(** [o] has exactly the fields [public], and none named in [restricted] *)
Definition only_fields (public restricted : list string) (o : Py.json) : Prop :=
  field_names o = public /\ forall k, In k restricted -> field o k = None.

End Policy.

(** ** A database made of lists, for concrete runs *)

Module Sqlite.
Import Py Server.

Record store := {
  miner_attest_recent : list attest_row;
  miner_attest_history : list (string * Z);
  balances : list (string * option Z);
  epoch_enroll : list (Z * string)
}.

(** [ORDER BY ts_ok DESC] by insertion *)
Fixpoint insert_desc (r : attest_row) (l : list attest_row) : list attest_row :=
  match l with
  | [] => [r]
  | x :: l' => if ts_ok x <? ts_ok r then r :: l else x :: insert_desc r l'
  end.

Definition order_desc (l : list attest_row) : list attest_row :=
  fold_right insert_desc [] l.

(** [MIN(ts_ok)] over the selected rows; NULL when there is none *)
Definition min_ts (l : list Z) : option Z :=
  match l with
  | [] => None
  | x :: l' => Some (fold_right Z.min x l')
  end.

Definition connect (s : store) : connection :=
  {| recent_attest := fun since =>
       Return (order_desc (List.filter (fun r => since <? ts_ok r) (miner_attest_recent s)));
     first_attest_of := fun m =>
       Return (Some (min_ts (map snd (List.filter (fun e => String.eqb (fst e) m)
                                       (miner_attest_history s)))));
     balance_of := fun m =>
       Return (option_map snd (List.find (fun e => String.eqb (fst e) m) (balances s)));
     enrolled_count := fun e =>
       Return (Z.of_nat (length (List.filter (fun x => fst x =? e) (epoch_enroll s)))) |}.

End Sqlite.

(** ** Concrete configurations and requests *)

Module Samples.
Import Py Server.

(** a table with one family, written with capitals *)
Definition sample_weights : Hardware.weights :=
  {[ "PowerPC" := {[ "G4" := (5 # 2)%Q; "default" := (2 # 1)%Q ]} ]}.

(** the server constants, for a given admin secret *)
Definition sample_config (secret : option string) : config :=
  {| ADMIN_KEY := secret;
     UNIT := 1000000;
     EPOCH_SLOTS := 144;
     PER_EPOCH_RTC := JFloat (3 # 2)%Q;
     HARDWARE_WEIGHTS := sample_weights;
     slot_to_epoch := fun slot => slot / 144 |}.

Definition alice_row : attest_row :=
  {| miner := "alice"; ts_ok := 3900;
     device_family := Some "PowerPC"; device_arch := Some "G4";
     entropy_score := Some (1 # 2)%Q |}.

Definition bob_row : attest_row :=
  {| miner := "bob"; ts_ok := 3950;
     device_family := None; device_arch := None;
     entropy_score := None |}.

Definition sample_store : Sqlite.store :=
  {| Sqlite.miner_attest_recent := [alice_row; bob_row];
     Sqlite.miner_attest_history := [("alice", 120); ("alice", 75)];
     Sqlite.balances := [("alice", Some 42)];
     Sqlite.epoch_enroll := [(7, "alice"); (6, "bob")] |}.

Definition env_of (s : Sqlite.store) : environment :=
  {| conn := Sqlite.connect s; time_now := 4000; current_slot := 1010 |}.

Definition sample_env : environment := env_of sample_store.

(** the connection [c] where the first-attestation query of miner [m]
    fails (for instance because the database is locked at that moment) *)
Definition failing_lookup (c : connection) (m : string) : connection :=
  {| recent_attest := recent_attest c;
     first_attest_of := fun x =>
       if String.eqb x m then Raise (DatabaseError "database is locked")
       else first_attest_of c x;
     balance_of := balance_of c;
     enrolled_count := enrolled_count c |}.

Definition failing_env (m : string) : environment :=
  {| conn := failing_lookup (Sqlite.connect sample_store) m;
     time_now := 4000; current_slot := 1010 |}.

(** a request on which the authentication flag was set *)
Definition flagged_request (flag : bool) : request :=
  {| headers := [("Host", "node")]; args := []; _is_admin := Some flag |}.

(** a request with the given [X-API-Key] header and query arguments *)
Definition request_with_key (key : string) (a : list (string * string)) : request :=
  {| headers := [("Host", "node"); ("X-API-Key", key)]; args := a; _is_admin := None |}.

(** a request without [X-API-Key] header *)
Definition request_without_key (a : list (string * string)) : request :=
  {| headers := [("Host", "node")]; args := a; _is_admin := None |}.

(** the world before a request: nothing executed, gauge never set *)
Definition fresh_world : world := {| executed := []; epoch_gauge := None |}.

(** the views that the patch defines at module level *)
Definition patch_globals (cfg : config) (env : environment) : gmap string Node.view :=
  {[ "api_miners" := Node.api_miners cfg env;
     "api_wallet_balance" := Node.api_wallet_balance cfg env;
     "get_epoch" := Node.get_epoch cfg env ]}.

End Samples.

(** ** Observations on runs and responses *)

Module Observe.
Import Py Server.

(** the columns of a row that an anonymous answer may show *)
Definition public_columns (r : attest_row)
  : string * Z * option string * option string :=
  (miner r, ts_ok r, device_family r, device_arch r).

(** the values of field [k] in a list of objects *)
Definition column (k : string) (objs : list json) : list (option json) :=
  map (fun o => Policy.field o k) objs.

(** [s] is made of white-space characters only: nothing is left of it
    once stripped *)
Definition all_space (s : string) : bool :=
  match PyStr.lstrip s with
  | EmptyString => true
  | String _ _ => false
  end.

(** the request [req] with other query arguments *)
Definition with_args (req : request) (a : list (string * string)) : request :=
  {| headers := headers req; args := a; _is_admin := _is_admin req |}.

(** the configuration [cfg] with another reward pot *)
Definition with_pot (cfg : config) (pot : json) : config :=
  {| ADMIN_KEY := ADMIN_KEY cfg;
     UNIT := UNIT cfg;
     EPOCH_SLOTS := EPOCH_SLOTS cfg;
     PER_EPOCH_RTC := pot;
     HARDWARE_WEIGHTS := HARDWARE_WEIGHTS cfg;
     slot_to_epoch := slot_to_epoch cfg |}.

(** the order of [ORDER BY ts_ok DESC] *)
Definition newest_first (a b : attest_row) : Prop := ts_ok b <= ts_ok a.

(** a request served from a database made of lists *)
Definition sqlite_env (s : Sqlite.store) (now slot : Z) : environment :=
  {| conn := Sqlite.connect s; time_now := now; current_slot := slot |}.

End Observe.

(** ** More concrete databases and requests *)

Module MoreSamples.
Import Py Server Samples.

(** alice with another entropy score *)
Definition alice_row_other : attest_row :=
  {| miner := "alice"; ts_ok := 3900;
     device_family := Some "PowerPC"; device_arch := Some "G4";
     entropy_score := Some (9 # 10)%Q |}.

(** a store with the same public columns as [sample_store], other
    entropy, history and enrolments *)
Definition other_store : Sqlite.store :=
  {| Sqlite.miner_attest_recent := [alice_row_other; bob_row];
     Sqlite.miner_attest_history := [("bob", 5)];
     Sqlite.balances := [];
     Sqlite.epoch_enroll := [(7, "alice"); (7, "bob")] |}.

Definition other_env : environment := env_of other_store.

(** a request with the given key, other headers, arguments, and a flag
    already set *)
Definition noisy_request (key : string) : request :=
  {| headers := [("X-API-Key", key); ("Accept", "*/*")];
     args := [("miner_id", "bob"); ("page", "2")];
     _is_admin := Some true |}.

(** U+00A0 NO-BREAK SPACE and U+2003 EM SPACE, by their UTF-8 bytes *)
Definition nbsp : string := String "194"%char (String "160"%char "").
Definition em_space : string :=
  String "226"%char (String "128"%char (String "131"%char "")).

End MoreSamples.

(** * Properties *)

Local Open Scope list_scope.

(** ** Strings *)

Module PyStrFacts.
Import PyStr.

Lemma upper_lower_char (c : ascii) : upper_char (lower_char c) = upper_char c.
Proof. destruct c as [[] [] [] [] [] [] [] []]; reflexivity. Qed.

Lemma lower_lower_char (c : ascii) : lower_char (lower_char c) = lower_char c.
Proof. destruct c as [[] [] [] [] [] [] [] []]; reflexivity. Qed.

Lemma upper_lower (s : string) : upper (lower s) = upper s.
Proof.
  induction s as [|c s IH]; simpl; [reflexivity|].
  now rewrite upper_lower_char, IH.
Qed.

Lemma lower_lower (s : string) : lower (lower s) = lower s.
Proof.
  induction s as [|c s IH]; simpl; [reflexivity|].
  now rewrite lower_lower_char, IH.
Qed.

Lemma in_tuple_In (x : string) (t : list string) :
  in_tuple x t = true -> In x t.
Proof.
  unfold in_tuple. rewrite existsb_exists.
  intros (y & Hy & Heq). apply String.eqb_eq in Heq. now subst.
Qed.

End PyStrFacts.

(** ** Hardware classification *)

Module HardwareFacts.
Import PyStr PyStrFacts Hardware.

(** The label computed from a family and an architecture belongs to the
    category that the rules give for their lower-cased forms. *)
Lemma hw_label_in_category (F A : string) :
  In (hw_label (lower F) (lower A) A) (labels (spec_rules (lower F) (lower A))).
Proof.
  unfold hw_label, spec_rules. rewrite lower_lower.
  destruct (contains "powerpc" (lower F) || contains "ppc" (lower F)).
  - destruct (in_tuple (lower A) ["g3"; "g4"; "g5"]) eqn:Hg.
    + apply in_tuple_In in Hg. rewrite <- (upper_lower A).
      destruct Hg as [<-|[<-|[<-|[]]]]; simpl; auto.
    + simpl; auto.
  - destruct (contains "apple" (lower F)
              || in_tuple (lower A) ["m1"; "m2"; "m3"; "apple_silicon"]).
    + simpl; auto.
    + destruct (contains "x86" (lower F) || contains "modern" (lower F)).
      * destruct (contains "retro" (lower A) || contains "core2" (lower A));
          simpl; auto.
      * simpl; auto.
Qed.

(** An empty family or architecture is matched like "unknown". *)
Lemma spec_rules_empty_family (a : string) :
  spec_rules (lower "unknown") a = spec_rules (lower "") a.
Proof. reflexivity. Qed.

Lemma spec_rules_empty_arch (f : string) :
  spec_rules f (lower "unknown") = spec_rules f (lower "").
Proof.
  unfold spec_rules.
  destruct (contains "powerpc" f || contains "ppc" f); [reflexivity|].
  destruct (contains "apple" f); reflexivity.
Qed.

Lemma spec_rules_or_else (fam arch : option string) :
  spec_rules (lower (or_else fam "unknown")) (lower (or_else arch "unknown"))
  = spec_category fam arch.
Proof.
  unfold spec_category.
  destruct fam as [[|c f]|], arch as [[|d a]|]; simpl or_else; simpl spec_default;
    try reflexivity;
    rewrite ?spec_rules_empty_family, ?spec_rules_empty_arch; reflexivity.
Qed.

Lemma labels_disjoint (l : string) (c c' : category) :
  In l (labels c) -> In l (labels c') -> c = c'.
Proof.
  destruct c, c'; simpl; intros H H'; try reflexivity;
    exfalso; intuition (subst; discriminate).
Qed.

(** C4: the hardware classification is a total function of the pair
    (device_family, device_arch), null components included: its label
    lies in exactly one of the four categories PowerPC (Vintage), Apple
    Silicon (Modern), x86 Retro / x86-64 and Unknown/Other, and that
    category is the one given by the rules taken in the order powerpc/ppc,
    then apple or an m1/m2/m3/apple_silicon architecture, then x86/modern,
    else Unknown/Other, after a null was replaced by "unknown".  Family
    "Apple" with architecture "M2" gives "Apple Silicon (Modern)", and two
    nulls give "Unknown/Other". *)
Theorem hw_type_total_classification :
  (forall fam arch : option string,
      In (hw_type fam arch) (labels (spec_category fam arch))
      /\ (forall c, In (hw_type fam arch) (labels c) -> c = spec_category fam arch))
  /\ hw_type (Some "Apple") (Some "M2") = "Apple Silicon (Modern)"
  /\ hw_type None None = "Unknown/Other".
Proof.
  split; [|split; reflexivity].
  intros fam arch.
  assert (Hin : In (hw_type fam arch) (labels (spec_category fam arch))).
  { unfold hw_type. rewrite <- spec_rules_or_else. apply hw_label_in_category. }
  split; [exact Hin|].
  intros c Hc. exact (labels_disjoint _ _ _ Hc Hin).
Qed.

(** ** Antiquity multiplier *)

Lemma mult_fallback (W : weights) (fam arch : option string) :
  mult W fam arch
  = spec_multiplier W (or_else fam "unknown") (or_else arch "unknown").
Proof.
  unfold mult, spec_multiplier, dict_get.
  destruct (W !! or_else fam "unknown") as [per_family|].
  - destruct (per_family !! or_else arch "unknown"); reflexivity.
  - rewrite !lookup_empty. reflexivity.
Qed.

(** C5: the antiquity multiplier is the exact (family, architecture)
    entry of the weight table when there is one, else the "default" entry
    of the family when there is one, else 1.0; a family without entry
    gives 1.0; the keys are the strings in their original case, so
    an entry under "PowerPC"/"G4" is not found for "powerpc"/"g4". *)
Theorem mult_three_level_fallback :
  (forall (W : weights) (fam arch : string),
      fam <> "" -> arch <> "" ->
      mult W (Some fam) (Some arch) = spec_multiplier W fam arch)
  /\ (forall (W : weights) (fam arch : option string),
         mult W fam arch
         = spec_multiplier W (or_else fam "unknown") (or_else arch "unknown"))
  /\ (forall (W : weights) (fam arch : option string),
         W !! or_else fam "unknown" = None -> mult W fam arch = 1%Q)
  /\ mult Samples.sample_weights (Some "PowerPC") (Some "G4") = (5 # 2)%Q
  /\ mult Samples.sample_weights (Some "PowerPC") (Some "G3") = (2 # 1)%Q
  /\ mult Samples.sample_weights (Some "powerpc") (Some "g4") = 1%Q.
Proof.
  split; [|split; [|split; [|split; [|split]]]].
  - intros W fam arch Hf Ha. rewrite mult_fallback.
    destruct fam, arch; try congruence; reflexivity.
  - apply mult_fallback.
  - intros W fam arch HW. rewrite mult_fallback. unfold spec_multiplier.
    now rewrite HW.
  - vm_compute. reflexivity.
  - vm_compute. reflexivity.
  - vm_compute. reflexivity.
Qed.

End HardwareFacts.

(** ** The request monad *)

Module PyFacts.
Import Py.

Lemma logged_nil (w : world) : logged w [] = w.
Proof. destruct w; unfold logged; simpl. now rewrite app_nil_r. Qed.

Lemma logged_logged (w : world) (a b : list statement) :
  logged (logged w a) b = logged w (a ++ b).
Proof. unfold logged; simpl. now rewrite app_assoc. Qed.

End PyFacts.

(** ** The miners list *)

Module MinersFacts.
Import Py Server Node Policy PyFacts.

Section WithConfig.
Variable cfg : config.
Variable env : environment.

Lemma first_attest_run (m : string) (w : world) :
  first_attest env m w
  = (Return (match first_attest_json (conn env) m with
             | JInt v => Some v
             | _ => None
             end),
     logged w [SelectFirstAttest m]).
Proof.
  unfold first_attest, try_except, bind, execute, ret, first_attest_json.
  destruct (first_attest_of (conn env) m) as [row2|e]; [|reflexivity].
  destruct (first_attest_value row2); reflexivity.
Qed.

Lemma first_attest_json_shape (c : connection) (m : string) :
  first_attest_json c m = JNull \/ exists v, first_attest_json c m = JInt v.
Proof.
  unfold first_attest_json.
  destruct (first_attest_of c m) as [row2|e]; [|now left].
  destruct (first_attest_value row2); [right; eauto | now left].
Qed.

Lemma miner_entry_anonymous (r : attest_row) (w : world) :
  miner_entry cfg env false r w = (Return (miner_anonymous cfg r), w).
Proof. reflexivity. Qed.

Lemma miner_entry_admin (r : attest_row) (w : world) :
  miner_entry cfg env true r w
  = (Return (miner_full cfg (conn env) r), logged w [SelectFirstAttest (miner r)]).
Proof.
  unfold miner_entry, bind. rewrite first_attest_run.
  unfold miner_full, miner_restricted_fields, ret.
  destruct (first_attest_json_shape (conn env) (miner r)) as [->|[v ->]];
    reflexivity.
Qed.

Lemma for_rows_run (b : bool) (rows : list attest_row) :
  forall (acc : list json) (w : world),
    for_rows cfg env b rows acc w
    = (Return (acc ++ map (entry_of cfg (conn env) b) rows), logged w (statements_of b rows)).
Proof.
  induction rows as [|r rows IH]; intros acc w.
  - simpl. unfold ret. rewrite app_nil_r.
    destruct b; simpl; now rewrite logged_nil.
  - simpl for_rows. unfold bind at 1.
    destruct b.
    + rewrite miner_entry_admin, IH, logged_logged, <- app_assoc. reflexivity.
    + rewrite miner_entry_anonymous, IH, <- app_assoc. reflexivity.
Qed.

(** The whole handler, for the value of the flag that it reads. *)
Lemma api_miners_run (req : request) (w : world) :
  api_miners cfg env req w
  = let since := time_now env - 3600 in
    let b := getattr_is_admin req false in
    match recent_attest (conn env) since with
    | Return rows =>
        (Return (JArr (map (entry_of cfg (conn env) b) rows), 200),
         logged w (SelectRecentAttest since :: statements_of b rows))
    | Raise e => (Raise e, logged w [SelectRecentAttest since])
    end.
Proof.
  unfold api_miners, bind at 1, execute. cbv zeta.
  destruct (recent_attest (conn env) (time_now env - 3600)) as [rows|e];
    [|reflexivity].
  unfold bind. rewrite for_rows_run, logged_logged. reflexivity.
Qed.

End WithConfig.

End MinersFacts.

(** ** The three credential checks *)

Module AccessFacts.
Import Py Server Node Policy.

Lemma classify_admin_inv (secret key : option string) :
  classify secret key = admin ->
  exists k, key = Some k /\ k <> "" /\ secret = Some k.
Proof.
  unfold classify. destruct key as [k|]; [|discriminate].
  case_bool_decide as H; [|discriminate].
  intros _. exists k. tauto.
Qed.

Lemma guarded_check_matches_policy (secret key : option string) :
  level_of (if key_truthy key then key_eq key secret else false)
  = classify secret key.
Proof.
  unfold classify. destruct key as [k|]; [|reflexivity].
  destruct k as [|c k]; cbn [key_truthy PyStr.truthy key_eq].
  - rewrite bool_decide_eq_false_2; [reflexivity|]. intros [H _]; congruence.
  - destruct secret as [s|].
    + destruct (String.eqb_spec (String c k) s) as [<-|Hne].
      * rewrite bool_decide_eq_true_2; [reflexivity|]. split; congruence.
      * rewrite bool_decide_eq_false_2; [reflexivity|].
        intros [_ H]; congruence.
    + rewrite bool_decide_eq_false_2; [reflexivity|]. intros [_ H]; congruence.
Qed.

(** The decorator's check (lines 16-17) follows the policy, whatever the
    configured secret. *)
Lemma decorator_check_matches_policy (cfg : config) (req : request) :
  level_of (decorator_is_admin cfg req) = classify (ADMIN_KEY cfg) (credential req).
Proof. apply guarded_check_matches_policy. Qed.

(** So does the check of [get_epoch] (lines 138-139). *)
Lemma epoch_check_matches_policy (cfg : config) (req : request) :
  level_of (epoch_is_authenticated cfg req) = classify (ADMIN_KEY cfg) (credential req).
Proof. apply guarded_check_matches_policy. Qed.

(** The check of [api_wallet_balance] (lines 110-111) follows the policy
    when the configured secret is a non-empty string. *)
Lemma balance_check_matches_policy (cfg : config) (req : request) (s : string) :
  ADMIN_KEY cfg = Some s -> s <> "" ->
  level_of (balance_is_admin cfg req) = classify (ADMIN_KEY cfg) (credential req).
Proof.
  intros Hs Hne. unfold balance_is_admin, classify, credential. rewrite Hs.
  destruct (headers_get (headers req) "X-API-Key") as [k|]; [|reflexivity].
  cbn [key_eq]. destruct (String.eqb_spec k s) as [->|Hks].
  - rewrite bool_decide_eq_true_2; [reflexivity|]. split; congruence.
  - rewrite bool_decide_eq_false_2; [reflexivity|]. intros [_ H]; congruence.
Qed.

(** An admin request passes the check of [api_wallet_balance]. *)
Lemma balance_check_admin (cfg : config) (req : request) :
  classify (ADMIN_KEY cfg) (credential req) = admin ->
  balance_is_admin cfg req = true.
Proof.
  intros H. destruct (classify_admin_inv _ _ H) as (k & Hk & Hne & Hs).
  unfold balance_is_admin. unfold credential in Hk. rewrite Hk, Hs. simpl.
  apply String.eqb_refl.
Qed.

(** C1, at the inputs where the code leaves it: the policy says
    anonymous, and the checks of the decorator and of [get_epoch] agree,
    but the check of [api_wallet_balance] lets the request through
    (a) when no secret is configured and the request has no [X-API-Key]
    header, and (b) when the configured secret is the empty string and the
    header is present and empty. *)
Theorem balance_check_admits_empty_credential :
  let unset := Samples.sample_config None in
  let empty := Samples.sample_config (Some "") in
  let no_header := Samples.request_without_key [] in
  let empty_header := Samples.request_with_key "" [] in
  (classify (ADMIN_KEY unset) (credential no_header) = anonymous
   /\ level_of (decorator_is_admin unset no_header) = anonymous
   /\ level_of (epoch_is_authenticated unset no_header) = anonymous
   /\ level_of (balance_is_admin unset no_header) = admin)
  /\ (classify (ADMIN_KEY empty) (credential empty_header) = anonymous
      /\ level_of (decorator_is_admin empty empty_header) = anonymous
      /\ level_of (epoch_is_authenticated empty empty_header) = anonymous
      /\ level_of (balance_is_admin empty empty_header) = admin).
Proof. cbv zeta. repeat split; vm_compute; reflexivity. Qed.

End AccessFacts.

(** ** The balance endpoint *)

Module BalanceFacts.
Import Py Server Node Policy PyFacts AccessFacts.

(** A request that fails the check of lines 110-111 is answered 401 with
    the fixed body, and nothing is executed. *)
Lemma balance_rejected (cfg : config) (env : environment) (req : request) (w : world) :
  balance_is_admin cfg req = false ->
  api_wallet_balance cfg env req w
  = (Return (JObj [ ("ok", JBool false);
                    ("reason", JStr "authentication_required");
                    ("message", JStr "Provide X-API-Key header with valid admin key") ],
             401), w).
Proof. intros H. unfold api_wallet_balance. now rewrite H. Qed.

(** With a non-empty configured secret, that covers every request that
    the policy classifies as anonymous. *)
Lemma balance_rejects_anonymous (cfg : config) (env : environment)
    (req : request) (w : world) (s : string) :
  ADMIN_KEY cfg = Some s -> s <> "" ->
  classify (ADMIN_KEY cfg) (credential req) = anonymous ->
  api_wallet_balance cfg env req w
  = (Return (authentication_required, 401), w).
Proof.
  intros Hs Hne Hanon. apply balance_rejected.
  pose proof (balance_check_matches_policy cfg req s Hs Hne) as H.
  rewrite Hanon in H. destruct (balance_is_admin cfg req); [discriminate|reflexivity].
Qed.

(** C2, at the input where the code leaves it: the configured secret is
    the empty string and the request carries an empty [X-API-Key] header,
    which the policy classifies as anonymous; the handler does not answer
    401 but queries the balances table and returns the balance of the
    requested miner with status 200.  The same happens without header when
    no secret is configured. *)
Theorem balance_served_without_credential :
  let empty := Samples.sample_config (Some "") in
  let unset := Samples.sample_config None in
  let req := Samples.request_with_key "" [("miner_id", "alice")] in
  let req' := Samples.request_without_key [("miner_id", "alice")] in
  let served :=
    (Return (JObj [ ("miner_id", JStr "alice");
                    ("amount_i64", JInt 42);
                    ("amount_rtc", JFloat (42 # 1000000)%Q) ], 200),
     {| executed := [SelectBalance "alice"]; epoch_gauge := None |}) in
  classify (ADMIN_KEY empty) (credential req) = anonymous
  /\ api_wallet_balance empty Samples.sample_env req Samples.fresh_world = served
  /\ classify (ADMIN_KEY unset) (credential req') = anonymous
  /\ api_wallet_balance unset Samples.sample_env req' Samples.fresh_world = served.
Proof. cbv zeta. repeat split; vm_compute; reflexivity. Qed.

Lemma args_get_absent (a : list (string * string)) (name default : string) :
  ~ In name (map fst a) -> args_get a name default = default.
Proof.
  induction a as [|[n v] a IH]; simpl; intros H; [reflexivity|].
  destruct (String.eqb_spec n name) as [->|Hne]; [tauto|].
  apply IH. tauto.
Qed.

(** C7: a request to the balance endpoint with the admin credential whose
    [miner_id] argument is absent, or empty once stripped, is answered
    with exactly the body ok=false, error="miner_id required" and status
    400; no statement is executed, whatever the database. *)
Theorem balance_requires_miner_id (cfg : config) (env : environment)
    (req : request) (w : world) :
  classify (ADMIN_KEY cfg) (credential req) = admin ->
  ~ In "miner_id" (map fst (args req))
  \/ PyStr.strip (args_get (args req) "miner_id" "") = "" ->
  api_wallet_balance cfg env req w
  = (Return (JObj [ ("ok", JBool false); ("error", JStr "miner_id required") ], 400),
     w).
Proof.
  intros Hadm Hmid.
  assert (Hblank : PyStr.strip (args_get (args req) "miner_id" "") = "").
  { destruct Hmid as [Habs|Hblank]; [|exact Hblank].
    now rewrite (args_get_absent _ _ _ Habs). }
  unfold api_wallet_balance.
  rewrite (balance_check_admin cfg req Hadm), Hblank. reflexivity.
Qed.

(** The answers of the balance endpoint once the check and the argument
    test are passed. *)
Lemma balance_run (cfg : config) (env : environment) (req : request) (w : world) :
  balance_is_admin cfg req = true ->
  let miner_id := PyStr.strip (args_get (args req) "miner_id" "") in
  miner_id <> "" ->
  api_wallet_balance cfg env req w
  = let w' := logged w [SelectBalance miner_id] in
    match balance_of (conn env) miner_id with
    | Raise e => (Raise e, w')
    | Return (Some None) => (Raise TypeError, w')
    | Return row =>
        let amt := match row with Some (Some v) => v | _ => 0 end in
        if UNIT cfg =? 0 then (Raise ZeroDivisionError, w')
        else (Return (JObj [ ("miner_id", JStr miner_id);
                             ("amount_i64", JInt amt);
                             ("amount_rtc",
                              JFloat (inject_Z amt / inject_Z (UNIT cfg))%Q) ],
                      200), w')
    end.
Proof.
  intros Hadm miner_id Hne. unfold api_wallet_balance. rewrite Hadm.
  fold miner_id. cbn [negb].
  destruct miner_id as [|c m] eqn:Hm; [congruence|]. cbn [PyStr.truthy negb].
  unfold bind, execute, truediv.
  destruct (balance_of (conn env) (String c m)) as [[[v|]|]|e]; cbn;
    try reflexivity; destruct (UNIT cfg =? 0); reflexivity.
Qed.


End BalanceFacts.

(** ** The epoch endpoint *)

Module EpochFacts.
Import Py Server Node Policy PyFacts AccessFacts.

(** the world after [get_epoch]: gauge set, one statement executed *)
Lemma get_epoch_run (cfg : config) (env : environment) (req : request) (w : world) :
  get_epoch cfg env req w
  = let epoch := slot_to_epoch cfg (current_slot env) in
    let w' := {| executed := executed w ++ [CountEnrolled epoch];
                 epoch_gauge := Some epoch |} in
    match enrolled_count (conn env) epoch with
    | Return enrolled =>
        (Return (if epoch_is_authenticated cfg req
                 then epoch_full cfg env enrolled
                 else epoch_anonymous cfg env, 200), w')
    | Raise e => (Raise e, w')
    end.
Proof.
  unfold get_epoch, bind, gauge_set, execute, logged. cbn.
  destruct (enrolled_count (conn env) _) as [n|e]; [|reflexivity].
  destruct (epoch_is_authenticated cfg req); reflexivity.
Qed.

Lemma epoch_anonymous_only_public (cfg : config) (env : environment) :
  only_fields epoch_public epoch_restricted (epoch_anonymous cfg env).
Proof.
  split; [reflexivity|].
  intros k [<-|[<-|[]]]; reflexivity.
Qed.

Lemma epoch_full_extends (cfg : config) (env : environment) (n : Z) :
  extends_with epoch_restricted (epoch_anonymous cfg env) (epoch_full cfg env n).
Proof.
  exists [("epoch_pot", PER_EPOCH_RTC cfg); ("enrolled_miners", JInt n)].
  split; reflexivity.
Qed.

End EpochFacts.

(** ** Field visibility of the endpoints with optional authentication *)

Module VisibilityFacts.
Import Py Server Node Policy PyFacts AccessFacts MinersFacts EpochFacts.

Lemma miner_anonymous_only_public (cfg : config) (r : attest_row) :
  only_fields miners_public miners_restricted (miner_anonymous cfg r).
Proof.
  split; [reflexivity|].
  intros k [<-|[<-|[]]]; reflexivity.
Qed.

Lemma miner_full_extends (cfg : config) (c : connection) (r : attest_row) :
  extends_with miners_restricted (miner_anonymous cfg r) (miner_full cfg c r).
Proof. exists (miner_restricted_fields c r). split; reflexivity. Qed.

Lemma miners_extend (cfg : config) (c : connection) (rows : list attest_row) :
  Forall2 (extends_with miners_restricted)
    (map (entry_of cfg c false) rows) (map (entry_of cfg c true) rows).
Proof.
  induction rows as [|r rows IH]; simpl; constructor; [|exact IH].
  apply miner_full_extends.
Qed.

Lemma miners_only_public (cfg : config) (c : connection) (rows : list attest_row) :
  Forall (only_fields miners_public miners_restricted)
    (map (entry_of cfg c false) rows).
Proof.
  induction rows as [|r rows IH]; simpl; constructor; [|exact IH].
  apply miner_anonymous_only_public.
Qed.

(** The miners endpoint is [api_miners] under the inner function of the
    decorator: the flag that the handler reads is the decorator's check. *)
Lemma decorated_api_miners_run (cfg : config) (env : environment)
    (req : request) (w : world) :
  decorated cfg (api_miners cfg env) req w
  = let since := time_now env - 3600 in
    let b := decorator_is_admin cfg req in
    match recent_attest (conn env) since with
    | Return rows =>
        (Return (JArr (map (entry_of cfg (conn env) b) rows), 200),
         logged w (SelectRecentAttest since :: statements_of b rows))
    | Raise e => (Raise e, logged w [SelectRecentAttest since])
    end.
Proof. unfold decorated. now rewrite api_miners_run. Qed.

Lemma level_of_anonymous (b : bool) : level_of b = anonymous -> b = false.
Proof. destruct b; [discriminate|reflexivity]. Qed.

Lemma level_of_admin (b : bool) : level_of b = admin -> b = true.
Proof. destruct b; [reflexivity|discriminate]. Qed.

(** C3, for a non-empty credential.  Over one database, clock and
    configuration, whatever the configured secret (unset and empty
    included): a request that the policy classifies as anonymous (no
    credential, or one that is empty or differs from the configured
    secret) is answered with status 200 and only the public fields of the
    endpoint, no restricted one, unless the query of the endpoint fails;
    and for a request whose credential is non-empty and equals the
    configured secret, either both answers fail with the same exception
    or both have status 200 and the admin answer is the anonymous one
    where each object is followed by exactly the restricted fields
    (first_attest and entropy_score for the miners, epoch_pot and
    enrolled_miners for the epoch). *)
Theorem optional_auth_field_visibility (cfg : config) (env : environment)
    (w : world) :
  (forall req : request,
      classify (ADMIN_KEY cfg) (credential req) = anonymous ->
      match decorated cfg (api_miners cfg env) req w with
      | (Return (body, status), _) =>
          status = 200
          /\ exists objs,
              body = JArr objs
              /\ Forall (only_fields miners_public miners_restricted) objs
      | (Raise e, _) => recent_attest (conn env) (time_now env - 3600) = Raise e
      end
      /\
      match get_epoch cfg env req w with
      | (Return (body, status), _) =>
          status = 200 /\ only_fields epoch_public epoch_restricted body
      | (Raise e, _) =>
          enrolled_count (conn env) (slot_to_epoch cfg (current_slot env)) = Raise e
      end)
  /\
  (forall req_anon req_admin : request,
      classify (ADMIN_KEY cfg) (credential req_anon) = anonymous ->
      classify (ADMIN_KEY cfg) (credential req_admin) = admin ->
      match decorated cfg (api_miners cfg env) req_anon w,
            decorated cfg (api_miners cfg env) req_admin w with
      | (Return (body_anon, status_anon), _),
        (Return (body_admin, status_admin), _) =>
          status_anon = 200 /\ status_admin = 200
          /\ exists objs_anon objs_admin,
              body_anon = JArr objs_anon /\ body_admin = JArr objs_admin
              /\ Forall (only_fields miners_public miners_restricted) objs_anon
              /\ Forall2 (extends_with miners_restricted) objs_anon objs_admin
      | (Raise e, _), (Raise e', _) => e = e'
      | _, _ => False
      end
      /\
      match get_epoch cfg env req_anon w, get_epoch cfg env req_admin w with
      | (Return (body_anon, status_anon), _),
        (Return (body_admin, status_admin), _) =>
          status_anon = 200 /\ status_admin = 200
          /\ only_fields epoch_public epoch_restricted body_anon
          /\ extends_with epoch_restricted body_anon body_admin
      | (Raise e, _), (Raise e', _) => e = e'
      | _, _ => False
      end).
Proof.
  split.
  - intros req Hanon. split.
    + rewrite decorated_api_miners_run. cbv zeta.
      rewrite <- decorator_check_matches_policy in Hanon.
      rewrite (level_of_anonymous _ Hanon).
      destruct (recent_attest (conn env) (time_now env - 3600)) as [rows|e];
        [|reflexivity].
      split; [reflexivity|]. eexists. split; [reflexivity|].
      apply miners_only_public.
    + rewrite get_epoch_run. cbv zeta.
      rewrite <- epoch_check_matches_policy in Hanon.
      rewrite (level_of_anonymous _ Hanon).
      destruct (enrolled_count (conn env) _) as [n|e]; [|reflexivity].
      split; [reflexivity | apply epoch_anonymous_only_public].
  - intros req_anon req_admin Hanon Hadm. split.
    + rewrite !decorated_api_miners_run. cbv zeta.
      rewrite <- decorator_check_matches_policy in Hanon, Hadm.
      rewrite (level_of_anonymous _ Hanon), (level_of_admin _ Hadm).
      destruct (recent_attest (conn env) (time_now env - 3600)) as [rows|e];
        [|reflexivity].
      split; [reflexivity|]. split; [reflexivity|].
      eexists _, _. split; [reflexivity|]. split; [reflexivity|].
      split; [apply miners_only_public | apply miners_extend].
    + rewrite !get_epoch_run. cbv zeta.
      rewrite <- epoch_check_matches_policy in Hanon, Hadm.
      rewrite (level_of_anonymous _ Hanon), (level_of_admin _ Hadm).
      destruct (enrolled_count (conn env) _) as [n|e]; [|reflexivity].
      split; [reflexivity|]. split; [reflexivity|].
      split; [apply epoch_anonymous_only_public | apply epoch_full_extends].
Qed.

(** C3 does not extend to an empty credential.  When the configured
    secret is the empty string,
    a request whose [X-API-Key] header is present and empty carries a
    credential equal to the configured secret, and both endpoints answer
    it with the anonymous response, without any restricted field. *)
Lemma optional_auth_empty_secret_counterexample :
  let cfg := Samples.sample_config (Some "") in
  let env := Samples.sample_env in
  let req := Samples.request_with_key "" [] in
  credential req = ADMIN_KEY cfg
  /\ (exists body w',
         get_epoch cfg env req Samples.fresh_world = (Return (body, 200), w')
         /\ body = epoch_anonymous cfg env
         /\ field body "epoch_pot" = None
         /\ field body "enrolled_miners" = None
         /\ ~ extends_with epoch_restricted (epoch_anonymous cfg env) body)
  /\ (exists body w',
         decorated cfg (api_miners cfg env) req Samples.fresh_world
         = (Return (body, 200), w')
         /\ body = JArr [miner_anonymous cfg Samples.bob_row;
                         miner_anonymous cfg Samples.alice_row]).
Proof.
  cbv zeta. split; [reflexivity|]. split.
  - eexists _, _. split; [vm_compute; reflexivity|].
    split; [reflexivity|]. split; [reflexivity|]. split; [reflexivity|].
    intros (added & Heq & Hkeys).
    apply (f_equal (@length _)) in Heq. rewrite length_app in Heq.
    destruct added; [discriminate Hkeys|]. simpl in Heq. lia.
  - eexists _, _. split; vm_compute; reflexivity.
Qed.

End VisibilityFacts.

(** ** The secondary query of the miners list *)

Module LookupFacts.
Import Py Server Node Policy PyFacts MinersFacts.

Lemma first_attest_json_failed (c : connection) (m : string) :
  first_attest_of c m = Return None \/ (exists e, first_attest_of c m = Raise e) ->
  first_attest_json c m = JNull.
Proof.
  unfold first_attest_json. intros [->|[e ->]]; reflexivity.
Qed.

Lemma miner_full_other_fields (cfg : config) (c c' : connection)
    (r : attest_row) (k : string) :
  k <> "first_attest" ->
  field (miner_full cfg c' r) k = field (miner_full cfg c r) k.
Proof.
  intros Hk. unfold miner_full, miner_restricted_fields, miner_data, field.
  cbn [app dict_lookup].
  repeat match goal with
         | |- context [String.eqb ?a k] =>
             destruct (String.eqb_spec a k); [try reflexivity; congruence|]
         end.
  reflexivity.
Qed.

Lemma miner_full_same_lookup (cfg : config) (c c' : connection) (r : attest_row) :
  first_attest_of c' (miner r) = first_attest_of c (miner r) ->
  miner_full cfg c' r = miner_full cfg c r.
Proof.
  intros H. unfold miner_full, miner_restricted_fields, first_attest_json.
  now rewrite H.
Qed.

(** C6: in an authenticated miners-list request over any rows, let the
    secondary query of miner [m] raise or return no row, and compare with
    the same request over a database [env'] that differs only in what
    that query gives for [m].  Both requests succeed with status 200 and
    one object per row; in the first, first_attest of every row of [m] is
    null; the objects of all other miners are identical in both, and the
    objects of [m] have the same field names and the same value in every
    field other than first_attest. *)
Theorem first_attest_failure_is_isolated (cfg : config) (env env' : environment)
    (req : request) (w : world) (m : string) (rows : list attest_row) :
  getattr_is_admin req false = true ->
  time_now env' = time_now env ->
  recent_attest (conn env) (time_now env - 3600) = Return rows ->
  recent_attest (conn env') (time_now env - 3600) = Return rows ->
  first_attest_of (conn env) m = Return None
  \/ (exists e, first_attest_of (conn env) m = Raise e) ->
  (forall m', m' <> m ->
     first_attest_of (conn env') m' = first_attest_of (conn env) m') ->
  let entry := entry_of cfg (conn env) true in
  let entry' := entry_of cfg (conn env') true in
  exists w1,
    api_miners cfg env req w = (Return (JArr (map entry rows), 200), w1)
    /\ api_miners cfg env' req w = (Return (JArr (map entry' rows), 200), w1)
    /\ forall r : attest_row,
        (miner r = m -> field (entry r) "first_attest" = Some JNull)
        /\ (miner r <> m -> entry' r = entry r)
        /\ field_names (entry' r) = field_names (entry r)
        /\ (forall k, k <> "first_attest" -> field (entry' r) k = field (entry r) k).
Proof.
  intros Hauth Hclock Hrows Hrows' Hfail Hsame entry entry'.
  eexists. split; [|split].
  - rewrite api_miners_run. cbv zeta. rewrite Hrows, Hauth. reflexivity.
  - rewrite api_miners_run. cbv zeta. rewrite Hclock, Hrows', Hauth. reflexivity.
  - intros r. unfold entry, entry', entry_of.
    split; [|split; [|split; [reflexivity|]]].
    + intros Hm. unfold miner_full, miner_restricted_fields, field.
      rewrite Hm, (first_attest_json_failed _ _ Hfail). reflexivity.
    + intros Hne. apply miner_full_same_lookup. now apply Hsame.
    + intros k Hk. now apply miner_full_other_fields.
Qed.

End LookupFacts.

(** ** The decorator *)

Module DecoratorFacts.
Import Py Server Node Policy PyFacts MinersFacts VisibilityFacts.

(** The function object of lines 15-21, called in a module where the
    name [f] denotes the view [f], runs [decorated f]; where the name is
    unbound it raises NameError. *)
Lemma decorated_closure_run (cfg : config) (G' : gmap string view)
    (req : request) (w : world) :
  decorated_closure cfg G' req w
  = match G' !! "f" with
    | Some f => decorated cfg f req w
    | None => (Raise (NameError "f"), w)
    end.
Proof.
  unfold decorated_closure, load_name, decorated.
  destruct (G' !! "f"); reflexivity.
Qed.

(** C9: [public_endpoint] takes only [require_auth], and its body reads
    the name [f], which it does not bind; when the module binds no [f]
    either, the call [public_endpoint(require_auth)] raises
    NameError for [f] instead of returning a decorated view, so the
    function that sets [_is_admin] is never produced. *)
Theorem public_endpoint_raises_name_error (cfg : config)
    (G : gmap string view) (require_auth : bool) :
  G !! "f" = None ->
  public_endpoint cfg G require_auth = Raise (NameError "f")
  /\ forall v : closure, public_endpoint cfg G require_auth <> Return v.
Proof.
  intros Hf. unfold public_endpoint, load_name. rewrite Hf.
  split; [reflexivity | discriminate].
Qed.

(** C10: [api_miners] reads the flag with [getattr(request, '_is_admin',
    False)]; on a request where nothing set the flag it answers like on a
    request whose flag is False, that is with the sanitized list: one
    object per row with exactly the public fields and neither
    first_attest nor entropy_score, and only the primary query is
    executed. *)
Theorem api_miners_fail_closed (cfg : config) (env : environment)
    (req : request) (w : world) :
  _is_admin req = None ->
  api_miners cfg env req w = api_miners cfg env (set_is_admin req false) w
  /\ api_miners cfg env req w
     = (let since := time_now env - 3600 in
        match recent_attest (conn env) since with
        | Return rows =>
            (Return (JArr (map (miner_anonymous cfg) rows), 200),
             logged w [SelectRecentAttest since])
        | Raise e => (Raise e, logged w [SelectRecentAttest since])
        end)
  /\ forall r : attest_row,
      only_fields miners_public miners_restricted (miner_anonymous cfg r).
Proof.
  intros Hflag. split; [|split].
  - rewrite !api_miners_run. unfold getattr_is_admin. rewrite Hflag. reflexivity.
  - rewrite api_miners_run. unfold getattr_is_admin. rewrite Hflag. reflexivity.
  - apply miner_anonymous_only_public.
Qed.

End DecoratorFacts.

(** ** Concrete runs *)

Module Runs.
Import Py Server Node Policy Hardware Samples.

Example strip_spaces : PyStr.strip "  ab c 	" = "ab c".
Proof. reflexivity. Qed.

Example strip_no_break_space :
  PyStr.strip (MoreSamples.nbsp ++ " alice" ++ MoreSamples.em_space)%string = "alice"
  /\ PyStr.strip MoreSamples.nbsp = "".
Proof. split; reflexivity. Qed.

Example balance_blank_miner_id_run :
  api_wallet_balance (sample_config (Some "s3cret")) sample_env
    (request_with_key "s3cret" [("miner_id", MoreSamples.nbsp)]) fresh_world
  = (Return (miner_id_required, 400), fresh_world).
Proof. vm_compute. reflexivity. Qed.

Example header_name_without_case :
  headers_get [("host", "node"); ("x-api-key", "k")] "X-API-Key" = Some "k".
Proof. reflexivity. Qed.

Example hw_type_ppc_g4 : hw_type (Some "PowerPC") (Some "g4") = "PowerPC G4 (Vintage)".
Proof. reflexivity. Qed.

Example hw_type_core2 :
  hw_type (Some "x86_64") (Some "Core2Duo") = "x86 Retro (Vintage)".
Proof. reflexivity. Qed.

Example hw_type_ppc_wins_over_apple :
  hw_type (Some "Apple PowerPC") (Some "M1") = "PowerPC (Vintage)".
Proof. reflexivity. Qed.

Example hw_type_empty_strings : hw_type (Some "") (Some "") = "Unknown/Other".
Proof. reflexivity. Qed.

(** the admin list over the sample store: newest row first, bob without
    history, alice with her earliest attestation *)
Example miners_admin_run :
  decorated (sample_config (Some "s3cret"))
    (api_miners (sample_config (Some "s3cret")) sample_env)
    (request_with_key "s3cret" []) fresh_world
  = (Return
       (JArr
          [ JObj [ ("miner", JStr "bob"); ("last_attest", JInt 3950);
                   ("device_family", JNull); ("device_arch", JNull);
                   ("hardware_type", JStr "Unknown/Other");
                   ("antiquity_multiplier", JFloat 1%Q);
                   ("first_attest", JNull);
                   ("entropy_score", JFloat 0%Q) ];
            JObj [ ("miner", JStr "alice"); ("last_attest", JInt 3900);
                   ("device_family", JStr "PowerPC"); ("device_arch", JStr "G4");
                   ("hardware_type", JStr "PowerPC G4 (Vintage)");
                   ("antiquity_multiplier", JFloat (5 # 2)%Q);
                   ("first_attest", JInt 75);
                   ("entropy_score", JFloat (1 # 2)%Q) ] ],
        200),
     {| executed := [ SelectRecentAttest 400;
                      SelectFirstAttest "bob"; SelectFirstAttest "alice" ];
        epoch_gauge := None |}).
Proof. vm_compute. reflexivity. Qed.

(** the gauge is set and the count is queried whoever asks *)
Example epoch_anonymous_run :
  get_epoch (sample_config (Some "s3cret")) sample_env
    (request_without_key []) fresh_world
  = (Return (JObj [ ("epoch", JInt 7); ("slot", JInt 1010);
                    ("blocks_per_epoch", JInt 144) ], 200),
     {| executed := [CountEnrolled 7]; epoch_gauge := Some 7 |}).
Proof. vm_compute. reflexivity. Qed.

Example epoch_admin_run :
  get_epoch (sample_config (Some "s3cret")) sample_env
    (request_with_key "s3cret" []) fresh_world
  = (Return (JObj [ ("epoch", JInt 7); ("slot", JInt 1010);
                    ("blocks_per_epoch", JInt 144);
                    ("epoch_pot", JFloat (3 # 2)%Q);
                    ("enrolled_miners", JInt 1) ], 200),
     {| executed := [CountEnrolled 7]; epoch_gauge := Some 7 |}).
Proof. vm_compute. reflexivity. Qed.

Example balance_wrong_key_run :
  api_wallet_balance (sample_config (Some "s3cret")) sample_env
    (request_with_key "guess" [("miner_id", "alice")]) fresh_world
  = (Return (authentication_required, 401), fresh_world).
Proof. vm_compute. reflexivity. Qed.

End Runs.

(** ** The properties at concrete inputs *)

Module Witnesses.
Import Py Server Node Policy Hardware Samples.

Lemma hw_type_total_classification_witness :
  In (hw_type (Some "Apple") (Some "M2")) (labels Apple_Silicon)
  /\ Apple_Silicon = spec_category (Some "Apple") (Some "M2").
Proof.
  split; [left; reflexivity|].
  apply (proj2 (proj1 HardwareFacts.hw_type_total_classification
                  (Some "Apple") (Some "M2"))).
  left; reflexivity.
Defined.

Lemma mult_three_level_fallback_witness :
  ("PowerPC" <> "" /\ "G5" <> ""
   /\ mult sample_weights (Some "PowerPC") (Some "G5")
      = spec_multiplier sample_weights "PowerPC" "G5")
  /\ (sample_weights !! PyStr.or_else (Some "Amiga") "unknown" = None
      /\ mult sample_weights (Some "Amiga") (Some "68k") = 1%Q).
Proof.
  split.
  - split; [discriminate|]. split; [discriminate|].
    apply (proj1 HardwareFacts.mult_three_level_fallback); discriminate.
  - split; [vm_compute; reflexivity|].
    apply (proj1 (proj2 (proj2 HardwareFacts.mult_three_level_fallback))).
    vm_compute; reflexivity.
Defined.

Lemma optional_auth_field_visibility_witness :
  (let cfg := sample_config None in
   let req := request_without_key [] in
   classify (ADMIN_KEY cfg) (credential req) = anonymous
   /\ match decorated cfg (api_miners cfg sample_env) req fresh_world with
      | (Return (body, status), _) =>
          status = 200
          /\ exists objs,
              body = JArr objs
              /\ Forall (only_fields miners_public miners_restricted) objs
      | (Raise e, _) =>
          recent_attest (conn sample_env) (time_now sample_env - 3600) = Raise e
      end)
  /\
  (let cfg := sample_config (Some "s3cret") in
   let env := sample_env in
   let req_anon := request_with_key "guess" [] in
   let req_admin := request_with_key "s3cret" [] in
   let w := fresh_world in
   classify (ADMIN_KEY cfg) (credential req_anon) = anonymous
   /\ classify (ADMIN_KEY cfg) (credential req_admin) = admin
   /\ match get_epoch cfg env req_anon w, get_epoch cfg env req_admin w with
      | (Return (body_anon, status_anon), _),
        (Return (body_admin, status_admin), _) =>
          status_anon = 200 /\ status_admin = 200
          /\ only_fields epoch_public epoch_restricted body_anon
          /\ extends_with epoch_restricted body_anon body_admin
      | (Raise e, _), (Raise e', _) => e = e'
      | _, _ => False
      end).
Proof.
  cbv zeta. split.
  - split; [vm_compute; reflexivity|].
    apply (proj1 (VisibilityFacts.optional_auth_field_visibility
                    (sample_config None) sample_env fresh_world)
             (request_without_key [])).
    vm_compute; reflexivity.
  - split; [vm_compute; reflexivity|]. split; [vm_compute; reflexivity|].
    apply (proj2 (VisibilityFacts.optional_auth_field_visibility
                    (sample_config (Some "s3cret")) sample_env fresh_world)
             (request_with_key "guess" []) (request_with_key "s3cret" []));
      vm_compute; reflexivity.
Defined.

Lemma first_attest_failure_is_isolated_witness :
  let cfg := sample_config (Some "s3cret") in
  let env := failing_env "alice" in
  let env' := sample_env in
  let req := flagged_request true in
  let rows := [bob_row; alice_row] in
  (getattr_is_admin req false = true
   /\ time_now env' = time_now env
   /\ recent_attest (conn env) (time_now env - 3600) = Return rows
   /\ recent_attest (conn env') (time_now env - 3600) = Return rows
   /\ (exists e, first_attest_of (conn env) "alice" = Raise e))
  /\ exists w1,
      api_miners cfg env req fresh_world
      = (Return (JArr (map (entry_of cfg (conn env) true) rows), 200), w1)
      /\ api_miners cfg env' req fresh_world
         = (Return (JArr (map (entry_of cfg (conn env') true) rows), 200), w1)
      /\ field (entry_of cfg (conn env) true alice_row) "first_attest" = Some JNull
      /\ field (entry_of cfg (conn env') true alice_row) "first_attest"
         = Some (JInt 75)
      /\ entry_of cfg (conn env') true bob_row = entry_of cfg (conn env) true bob_row.
Proof.
  cbv zeta. split.
  - split; [reflexivity|]. split; [reflexivity|].
    split; [vm_compute; reflexivity|]. split; [vm_compute; reflexivity|].
    eexists; vm_compute; reflexivity.
  - destruct (LookupFacts.first_attest_failure_is_isolated
                (sample_config (Some "s3cret")) (failing_env "alice") sample_env
                (flagged_request true) fresh_world "alice" [bob_row; alice_row])
      as (w1 & Hrun & Hrun' & Hrows).
    + reflexivity.
    + reflexivity.
    + vm_compute; reflexivity.
    + vm_compute; reflexivity.
    + right. eexists; vm_compute; reflexivity.
    + intros m' Hne. simpl.
      destruct (String.eqb_spec m' "alice"); [contradiction|reflexivity].
    + exists w1. split; [exact Hrun|]. split; [exact Hrun'|].
      split; [apply (proj1 (Hrows alice_row)); reflexivity|].
      split; [vm_compute; reflexivity|].
      apply (proj1 (proj2 (Hrows bob_row))). discriminate.
Defined.

Lemma balance_requires_miner_id_witness :
  let cfg := sample_config (Some "s3cret") in
  let blank := (" " ++ MoreSamples.nbsp ++ MoreSamples.em_space)%string in
  let req := request_with_key "s3cret" [("miner_id", blank)] in
  classify (ADMIN_KEY cfg) (credential req) = admin
  /\ PyStr.strip (args_get (args req) "miner_id" "") = ""
  /\ api_wallet_balance cfg sample_env req fresh_world
     = (Return (JObj [ ("ok", JBool false); ("error", JStr "miner_id required") ], 400),
        fresh_world).
Proof.
  cbv zeta.
  split; [vm_compute; reflexivity|]. split; [vm_compute; reflexivity|].
  apply BalanceFacts.balance_requires_miner_id;
    [vm_compute; reflexivity | right; vm_compute; reflexivity].
Defined.


Lemma public_endpoint_raises_name_error_witness :
  let cfg := sample_config (Some "s3cret") in
  let G := patch_globals cfg sample_env in
  G !! "f" = None
  /\ public_endpoint cfg G false = Raise (NameError "f")
  /\ forall v : closure, public_endpoint cfg G false <> Return v.
Proof.
  cbv zeta. split; [vm_compute; reflexivity|].
  apply DecoratorFacts.public_endpoint_raises_name_error. vm_compute; reflexivity.
Defined.

Lemma api_miners_fail_closed_witness :
  let cfg := sample_config (Some "s3cret") in
  let req := request_with_key "s3cret" [] in
  _is_admin req = None
  /\ api_miners cfg sample_env req fresh_world
     = (Return (JArr [miner_anonymous cfg bob_row; miner_anonymous cfg alice_row], 200),
        logged fresh_world [SelectRecentAttest 400]).
Proof.
  cbv zeta. split; [reflexivity|].
  rewrite (proj1 (proj2 (DecoratorFacts.api_miners_fail_closed
                           (sample_config (Some "s3cret")) sample_env
                           (request_with_key "s3cret" []) fresh_world
                           eq_refl))).
  vm_compute; reflexivity.
Defined.

End Witnesses.

(** * Further properties of the handlers *)

(** ** Effects and failures of get_epoch and api_miners *)

Module EffectFacts.
Import Py Server Node Policy Observe PyFacts MinersFacts EpochFacts.

Lemma Forall2_map_self {A B} (P : A -> B -> Prop) (f : A -> B) (l : list A) :
  (forall a, P a (f a)) -> Forall2 P l (map f l).
Proof. intros H. induction l; simpl; constructor; auto. Qed.

(** X1: what [get_epoch] does to the world does not depend on the
    request: it sets the gauge to the epoch of the current slot and
    executes the enrolment count once, for an anonymous caller as for
    an admin, and also when the count fails. *)
Theorem get_epoch_effects_ignore_request (cfg : config) (env : environment)
    (req req' : request) (w : world) :
  let epoch := slot_to_epoch cfg (current_slot env) in
  snd (get_epoch cfg env req w)
  = {| executed := executed w ++ [CountEnrolled epoch]; epoch_gauge := Some epoch |}
  /\ snd (get_epoch cfg env req' w) = snd (get_epoch cfg env req w).
Proof.
  cbv zeta. rewrite !get_epoch_run. cbv zeta.
  destruct (enrolled_count (conn env) _); split; reflexivity.
Qed.

(** X2: [get_epoch] fails exactly when the enrolment count fails, with
    the same exception and whoever asks; otherwise it answers with
    status 200. *)
Theorem get_epoch_fails_only_with_count (cfg : config) (env : environment)
    (req : request) (w : world) :
  let epoch := slot_to_epoch cfg (current_slot env) in
  (forall e, fst (get_epoch cfg env req w) = Raise e
             <-> enrolled_count (conn env) epoch = Raise e)
  /\ (forall body status,
         fst (get_epoch cfg env req w) = Return (body, status) ->
         status = 200 /\ exists n, enrolled_count (conn env) epoch = Return n).
Proof.
  cbv zeta. rewrite get_epoch_run. cbv zeta.
  destruct (enrolled_count (conn env) _) as [n|e0]; simpl; split.
  - intros e; split; discriminate.
  - intros body status H. inversion H. eauto.
  - intros e; split; intros H; inversion H; reflexivity.
  - intros body status H; discriminate.
Qed.

(** X3: [api_miners] fails exactly when its primary query fails, with
    the same exception; no outcome of the per-miner queries makes it
    fail.  When it answers, the status is 200 and the body is a list with
    one object per selected row. *)
Theorem api_miners_fails_only_with_primary_query (cfg : config)
    (env : environment) (req : request) (w : world) :
  let since := time_now env - 3600 in
  (forall e, fst (api_miners cfg env req w) = Raise e
             <-> recent_attest (conn env) since = Raise e)
  /\ (forall body status,
         fst (api_miners cfg env req w) = Return (body, status) ->
         status = 200
         /\ exists rows objs,
             recent_attest (conn env) since = Return rows
             /\ body = JArr objs /\ length objs = length rows).
Proof.
  cbv zeta. rewrite api_miners_run. cbv zeta.
  destruct (recent_attest (conn env) _) as [rows|e0]; simpl; split.
  - intros e; split; discriminate.
  - intros body status H. inversion H. split; [reflexivity|].
    eexists _, _. split; [reflexivity|]. split; [reflexivity|].
    apply length_map.
  - intros e; split; intros H; inversion H; reflexivity.
  - intros body status H; discriminate.
Qed.

(** X4: the statements of [api_miners]: an anonymous request executes
    the primary query and nothing else; an authenticated one executes
    after it one first-attestation query per selected row, in the order
    of the rows, whether those queries succeed or not.  The gauge is not
    touched. *)
Theorem api_miners_statements (cfg : config) (env : environment)
    (req : request) (w : world) :
  let since := time_now env - 3600 in
  let w' := snd (api_miners cfg env req w) in
  epoch_gauge w' = epoch_gauge w
  /\ match recent_attest (conn env) since with
     | Return rows =>
         executed w'
         = executed w ++ SelectRecentAttest since ::
             (if getattr_is_admin req false
              then map (fun r => SelectFirstAttest (miner r)) rows
              else [])
         /\ length (executed w')
            = (length (executed w) + 1
               + (if getattr_is_admin req false then length rows else 0))%nat
     | Raise _ => executed w' = executed w ++ [SelectRecentAttest since]
     end.
Proof.
  cbv zeta. rewrite api_miners_run. cbv zeta.
  destruct (recent_attest (conn env) _) as [rows|e0]; simpl;
    (split; [reflexivity|]); [|reflexivity].
  split; [reflexivity|]. rewrite length_app. simpl.
  destruct (getattr_is_admin req false); simpl; rewrite ?length_map; lia.
Qed.

Lemma entry_describes_row (cfg : config) (c : connection) (b : bool) (r : attest_row) :
  field (entry_of cfg c b r) "miner" = Some (JStr (miner r))
  /\ field (entry_of cfg c b r) "last_attest" = Some (JInt (ts_ok r))
  /\ field (entry_of cfg c b r) "hardware_type"
     = Some (JStr (Hardware.hw_type (device_family r) (device_arch r)))
  /\ field (entry_of cfg c b r) "antiquity_multiplier"
     = Some (JFloat (Hardware.mult (HARDWARE_WEIGHTS cfg)
                       (device_family r) (device_arch r))).
Proof. destruct b; repeat split; reflexivity. Qed.

(** X5: the answer of [api_miners] follows the selected rows: the i-th
    object carries the miner and the timestamp of the i-th row, and the
    label and the multiplier computed from the family and architecture of
    that same row, with or without authentication. *)
Theorem api_miners_objects_follow_rows (cfg : config) (env : environment)
    (req : request) (w : world) (rows : list attest_row) :
  recent_attest (conn env) (time_now env - 3600) = Return rows ->
  exists objs,
    fst (api_miners cfg env req w) = Return (JArr objs, 200)
    /\ column "miner" objs = map (fun r => Some (JStr (miner r))) rows
    /\ column "last_attest" objs = map (fun r => Some (JInt (ts_ok r))) rows
    /\ Forall2 (fun r o =>
                  field o "hardware_type"
                  = Some (JStr (Hardware.hw_type (device_family r) (device_arch r)))
                  /\ field o "antiquity_multiplier"
                     = Some (JFloat (Hardware.mult (HARDWARE_WEIGHTS cfg)
                                       (device_family r) (device_arch r))))
         rows objs.
Proof.
  intros Hrows. rewrite api_miners_run. cbv zeta. rewrite Hrows.
  eexists. split; [reflexivity|].
  set (b := getattr_is_admin req false).
  unfold column. rewrite !map_map.
  split; [|split].
  - apply map_ext. intros r. apply entry_describes_row.
  - apply map_ext. intros r. apply entry_describes_row.
  - apply Forall2_map_self. intros r.
    destruct (entry_describes_row cfg (conn env) b r) as (_ & _ & H1 & H2).
    split; assumption.
Qed.

(** X6: in an authenticated answer, first_attest of a row is the integer
    [v] exactly when the first-attestation query of its miner returned a
    row holding the non-zero integer [v]; in every other case (exception,
    no row, NULL, and also the timestamp 0) it is null. *)
Theorem first_attest_reported (cfg : config) (env : environment)
    (req : request) (w : world) (rows : list attest_row) :
  getattr_is_admin req false = true ->
  recent_attest (conn env) (time_now env - 3600) = Return rows ->
  exists objs,
    fst (api_miners cfg env req w) = Return (JArr objs, 200)
    /\ Forall2 (fun r o =>
                  (forall v, field o "first_attest" = Some (JInt v)
                             <-> first_attest_of (conn env) (miner r)
                                 = Return (Some (Some v)) /\ v <> 0)
                  /\ (field o "first_attest" = Some JNull
                      <-> forall v, first_attest_of (conn env) (miner r)
                                    = Return (Some (Some v)) -> v = 0))
         rows objs.
Proof.
  intros Hauth Hrows. rewrite api_miners_run. cbv zeta. rewrite Hrows, Hauth.
  eexists. split; [reflexivity|].
  apply Forall2_map_self. intros r.
  unfold entry_of, miner_full, miner_restricted_fields, field.
  cbn [app dict_lookup miner_data String.eqb Ascii.eqb Bool.eqb].
  unfold first_attest_json.
  destruct (first_attest_of (conn env) (miner r)) as [[[t|]|]|e];
    cbn [first_attest_value].
  - destruct (Z.eqb_spec t 0) as [->|Ht]; split.
    + intros v; split; [discriminate|]. intros [H Hv]. congruence.
    + split; [|reflexivity]. intros _ v H. congruence.
    + intros v; split.
      * intros H. inversion H. subst. split; [reflexivity|assumption].
      * intros [H _]. congruence.
    + split; [discriminate|]. intros H. specialize (H t eq_refl). contradiction.
  - split; [intros v; split; [discriminate|intros [H _]; discriminate]|].
    split; [|reflexivity]. intros _ v H; discriminate.
  - split; [intros v; split; [discriminate|intros [H _]; discriminate]|].
    split; [|reflexivity]. intros _ v H; discriminate.
  - split; [intros v; split; [discriminate|intros [H _]; discriminate]|].
    split; [|reflexivity]. intros _ v H; discriminate.
Qed.

Lemma entropy_or_zero_value (e : option Q) :
  (entropy_or_zero e == match e with Some q => q | None => 0 end)%Q.
Proof.
  destruct e as [q|]; simpl; [|reflexivity].
  destruct (Qeq_bool q 0) eqn:H; [|reflexivity].
  symmetry. now apply Qeq_bool_eq.
Qed.

(** X7: in an authenticated answer, entropy_score is always a number,
    never null: it has the value stored in the row, and 0 when the row
    holds NULL. *)
Theorem entropy_score_reported (cfg : config) (env : environment)
    (req : request) (w : world) (rows : list attest_row) :
  getattr_is_admin req false = true ->
  recent_attest (conn env) (time_now env - 3600) = Return rows ->
  exists objs,
    fst (api_miners cfg env req w) = Return (JArr objs, 200)
    /\ Forall2 (fun r o =>
                  exists q, field o "entropy_score" = Some (JFloat q)
                            /\ (q == match entropy_score r with
                                     | Some e => e
                                     | None => 0
                                     end)%Q)
         rows objs.
Proof.
  intros Hauth Hrows. rewrite api_miners_run. cbv zeta. rewrite Hrows, Hauth.
  eexists. split; [reflexivity|].
  apply Forall2_map_self. intros r.
  exists (entropy_or_zero (entropy_score r)).
  split; [reflexivity | apply entropy_or_zero_value].
Qed.

End EffectFacts.

(** ** White space around miner_id *)

Module StripFacts.
Import PyStr Observe.

Ltac byte_tests :=
  unfold is_space, is_space2, is_space3 in *; cbv zeta in *;
  repeat rewrite ?Bool.orb_true_iff, ?Bool.andb_true_iff, ?N.eqb_eq, ?N.leb_le in *;
  lia.

(** An ASCII space is below 128; the other white-space characters start
    with a byte from 192 on and go on with bytes between 128 and 191. *)
Lemma is_space_byte (b : ascii) :
  is_space b = true -> (N_of_ascii b < 128)%N.
Proof. intros H. byte_tests. Qed.

Lemma is_space2_bytes (b1 b2 : ascii) :
  is_space2 b1 b2 = true ->
  (192 <= N_of_ascii b1 /\ 128 <= N_of_ascii b2 < 192)%N.
Proof. intros H. byte_tests. Qed.

Lemma is_space3_bytes (b1 b2 b3 : ascii) :
  is_space3 b1 b2 b3 = true ->
  (192 <= N_of_ascii b1 /\ 128 <= N_of_ascii b2 < 192
   /\ 128 <= N_of_ascii b3 < 192)%N.
Proof. intros H. byte_tests. Qed.

Lemma not_is_space (b : ascii) : (128 <= N_of_ascii b)%N -> is_space b = false.
Proof.
  intros H. destruct (is_space b) eqn:E; [|reflexivity].
  apply is_space_byte in E. lia.
Qed.

Lemma not_is_space2 (b1 b2 : ascii) :
  (N_of_ascii b1 < 192)%N -> is_space2 b1 b2 = false.
Proof.
  intros H. destruct (is_space2 b1 b2) eqn:E; [|reflexivity].
  apply is_space2_bytes in E. lia.
Qed.

(** a string of white space starts with the first byte of a character *)
Lemma all_space_head (c : ascii) (q : string) :
  lstrip (String c q) = "" ->
  (N_of_ascii c < 128 \/ 192 <= N_of_ascii c)%N.
Proof.
  cbn [lstrip]. destruct (is_space c) eqn:E1.
  - intros _. left. now apply is_space_byte.
  - destruct q as [|b2 q2]; [discriminate|].
    destruct (is_space2 c b2) eqn:E2.
    + intros _. right. now apply is_space2_bytes in E2.
    + destruct q2 as [|b3 q3]; [discriminate|].
      destruct (is_space3 c b2 b3) eqn:E3; [|discriminate].
      intros _. right. now apply is_space3_bytes in E3.
Qed.

Lemma app_cons (b : ascii) (s x : string) :
  (String b s ++ x)%string = String b (s ++ x)%string.
Proof. reflexivity. Qed.

Lemma app_nil (x : string) : ("" ++ x)%string = x.
Proof. reflexivity. Qed.

Lemma lstrip_cons (b1 : ascii) (s1 : string) :
  lstrip (String b1 s1)
  = if is_space b1 then lstrip s1
    else
      match s1 with
      | EmptyString => String b1 s1
      | String b2 s2 =>
          if is_space2 b1 b2 then lstrip s2
          else
            match s2 with
            | EmptyString => String b1 s1
            | String b3 s3 =>
                if is_space3 b1 b2 b3 then lstrip s3 else String b1 s1
            end
      end.
Proof. reflexivity. Qed.

Lemma rstrip_cons (c : ascii) (s : string) :
  rstrip (String c s)
  = if is_space_char (String c (rstrip s)) then "" else String c (rstrip s).
Proof. reflexivity. Qed.

Ltac string_step := rewrite ?app_cons, ?app_nil in *; cbv beta iota in *.

Lemma lstrip_shrinks_bounded (n : nat) :
  forall t : string,
    (String.length t <= n)%nat ->
    (String.length (lstrip t) <= String.length t)%nat.
Proof.
  induction n as [|n IH]; intros t Ht.
  - destruct t; [simpl; lia | simpl in Ht; lia].
  - destruct t as [|c1 t1]; [simpl; lia|].
    rewrite lstrip_cons. cbn [String.length] in *.
    destruct (is_space c1); [specialize (IH t1); lia|].
    destruct t1 as [|c2 t2]; [cbn [String.length]; lia|].
    cbn [String.length] in *.
    destruct (is_space2 c1 c2); [specialize (IH t2); lia|].
    destruct t2 as [|c3 t3]; [cbn [String.length]; lia|].
    cbn [String.length] in *.
    destruct (is_space3 c1 c2 c3); cbn [String.length];
      [specialize (IH t3); lia | lia].
Qed.

Lemma lstrip_shrinks (t : string) :
  (String.length (lstrip t) <= String.length t)%nat.
Proof. apply (lstrip_shrinks_bounded (String.length t)). lia. Qed.

Lemma lstrip_app_space_bounded (n : nat) :
  forall p x : string,
    (String.length p <= n)%nat -> lstrip p = "" ->
    lstrip (p ++ x)%string = lstrip x.
Proof.
  induction n as [|n IH]; intros p x Hlen Hp.
  - destruct p; [reflexivity | simpl in Hlen; lia].
  - destruct p as [|b1 p1]; [reflexivity|].
    cbn [String.length] in Hlen. rewrite app_cons.
    rewrite lstrip_cons in Hp |- *.
    destruct (is_space b1); [apply IH; [lia | exact Hp]|].
    destruct p1 as [|b2 p2]; [discriminate Hp|].
    cbn [String.length] in Hlen. string_step.
    destruct (is_space2 b1 b2); [apply IH; [lia | exact Hp]|].
    destruct p2 as [|b3 p3]; [discriminate Hp|].
    cbn [String.length] in Hlen. string_step.
    destruct (is_space3 b1 b2 b3); [apply IH; [lia | exact Hp] | discriminate Hp].
Qed.

Lemma lstrip_app_space (p x : string) :
  lstrip p = "" -> lstrip (p ++ x)%string = lstrip x.
Proof. apply (lstrip_app_space_bounded (String.length p)). lia. Qed.

Lemma rstrip_all_space_bounded (n : nat) :
  forall q : string,
    (String.length q <= n)%nat -> lstrip q = "" -> rstrip q = "".
Proof.
  induction n as [|n IH]; intros q Hlen Hq.
  - destruct q; [reflexivity | simpl in Hlen; lia].
  - destruct q as [|b1 q1]; [reflexivity|].
    cbn [String.length] in Hlen. rewrite lstrip_cons in Hq.
    destruct (is_space b1) eqn:E1.
    { rewrite rstrip_cons, (IH q1) by (lia || exact Hq).
      cbn [is_space_char]. now rewrite E1. }
    destruct q1 as [|b2 q2]; [discriminate Hq|].
    cbn [String.length] in Hlen.
    destruct (is_space2 b1 b2) eqn:E2.
    { pose proof (is_space2_bytes _ _ E2) as Hb.
      rewrite !rstrip_cons, (IH q2) by (lia || exact Hq).
      cbn [is_space_char]. rewrite (not_is_space b2) by lia.
      cbn [is_space_char]. now rewrite E2. }
    destruct q2 as [|b3 q3]; [discriminate Hq|].
    cbn [String.length] in Hlen.
    destruct (is_space3 b1 b2 b3) eqn:E3; [|discriminate Hq].
    pose proof (is_space3_bytes _ _ _ E3) as Hb.
    rewrite !rstrip_cons, (IH q3) by (lia || exact Hq).
    cbn [is_space_char]. rewrite (not_is_space b3) by lia.
    cbn [is_space_char]. rewrite (not_is_space2 b2 b3) by lia.
    cbn [is_space_char]. now rewrite E3.
Qed.

Lemma rstrip_all_space (q : string) : lstrip q = "" -> rstrip q = "".
Proof. apply (rstrip_all_space_bounded (String.length q)). lia. Qed.

Lemma rstrip_app_space (y q : string) :
  lstrip q = "" -> rstrip (y ++ q)%string = rstrip y.
Proof.
  intros Hq. induction y as [|c y IH].
  - rewrite app_nil. now apply rstrip_all_space.
  - rewrite app_cons, !rstrip_cons. now rewrite IH.
Qed.

(** white space to the right of [s] cannot complete a character begun
    in [s] *)
Lemma lstrip_kept_app (s q : string) :
  lstrip q = "" -> s <> "" -> lstrip s = s ->
  lstrip (s ++ q)%string = (s ++ q)%string.
Proof.
  intros Hq Hne Hs.
  destruct s as [|b1 s1]; [congruence|]. clear Hne.
  rewrite lstrip_cons in Hs. rewrite app_cons, lstrip_cons.
  destruct (is_space b1) eqn:E1.
  { exfalso. pose proof (lstrip_shrinks s1) as H. rewrite Hs in H.
    cbn [String.length] in H. lia. }
  destruct s1 as [|b2 s2].
  { string_step. destruct q as [|c1 q1]; [reflexivity|].
    pose proof (all_space_head c1 q1 Hq) as Hc.
    destruct (is_space2 b1 c1) eqn:E2;
      [exfalso; apply is_space2_bytes in E2; lia|].
    destruct q1 as [|c2 q2]; [reflexivity|].
    destruct (is_space3 b1 c1 c2) eqn:E3;
      [exfalso; apply is_space3_bytes in E3; lia | reflexivity]. }
  string_step.
  destruct (is_space2 b1 b2) eqn:E2.
  { exfalso. pose proof (lstrip_shrinks s2) as H. rewrite Hs in H.
    cbn [String.length] in H. lia. }
  destruct s2 as [|b3 s3].
  { string_step. destruct q as [|c1 q1]; [reflexivity|].
    pose proof (all_space_head c1 q1 Hq) as Hc.
    destruct (is_space3 b1 b2 c1) eqn:E3;
      [exfalso; apply is_space3_bytes in E3; lia | reflexivity]. }
  string_step.
  destruct (is_space3 b1 b2 b3) eqn:E3; [|reflexivity].
  exfalso. pose proof (lstrip_shrinks s3) as H. rewrite Hs in H.
  cbn [String.length] in H. lia.
Qed.

(** the part of [s ++ q] that [lstrip] removes is the part of [s] that
    it removes, and all of [q] when nothing of [s] is left *)
Lemma lstrip_app_bounded (n : nat) :
  forall s q : string,
    (String.length s <= n)%nat -> lstrip q = "" ->
    lstrip (s ++ q)%string
    = match lstrip s with
      | EmptyString => EmptyString
      | String _ _ => (lstrip s ++ q)%string
      end.
Proof.
  induction n as [|n IH]; intros s q Hlen Hq.
  - destruct s; [rewrite app_nil; now rewrite Hq | simpl in Hlen; lia].
  - destruct s as [|b1 s1]; [rewrite app_nil; now rewrite Hq|].
    cbn [String.length] in Hlen.
    assert (Hkept : lstrip (String b1 s1) = String b1 s1 ->
                    lstrip (String b1 s1 ++ q)%string
                    = (String b1 s1 ++ q)%string)
      by (apply lstrip_kept_app; [exact Hq | discriminate]).
    rewrite (app_cons b1 s1 q) in *.
    rewrite (lstrip_cons b1 (s1 ++ q)), (lstrip_cons b1 s1) in *.
    destruct (is_space b1) eqn:E1; [apply IH; [lia | exact Hq]|].
    destruct s1 as [|b2 s2]; [now apply Hkept|].
    cbn [String.length] in Hlen. string_step.
    destruct (is_space2 b1 b2) eqn:E2; [apply IH; [lia | exact Hq]|].
    destruct s2 as [|b3 s3]; [now apply Hkept|].
    cbn [String.length] in Hlen. string_step.
    destruct (is_space3 b1 b2 b3) eqn:E3; [apply IH; [lia | exact Hq]|].
    now apply Hkept.
Qed.

Lemma all_space_true (s : string) : all_space s = true -> lstrip s = "".
Proof. unfold all_space. destruct (lstrip s); [reflexivity | discriminate]. Qed.

Lemma strip_padding (p s q : string) :
  all_space p = true -> all_space q = true ->
  strip (p ++ s ++ q)%string = strip s.
Proof.
  intros Hp Hq. apply all_space_true in Hp, Hq. unfold strip.
  rewrite (lstrip_app_space p _ Hp).
  rewrite (lstrip_app_bounded (String.length s) s q ltac:(lia) Hq).
  destruct (lstrip s) as [|c r]; [reflexivity|].
  now apply rstrip_app_space.
Qed.

End StripFacts.

(** ** Answers, effects and failures of api_wallet_balance *)

Module BalanceMoreFacts.
Import Py Server Node Policy Observe PyFacts AccessFacts BalanceFacts StripFacts.

Lemma key_eq_true_iff (key secret : option string) :
  key_eq key secret = true <-> key = secret.
Proof.
  destruct key as [k|], secret as [s|]; simpl; split; try congruence;
    try reflexivity.
  - intros H. apply String.eqb_eq in H. congruence.
  - intros H. inversion H. apply String.eqb_refl.
Qed.

Lemma truthy_false_iff (s : string) : PyStr.truthy s = false <-> s = "".
Proof. destruct s; simpl; split; congruence. Qed.

(** X8: [api_wallet_balance] answers with the 401 body exactly when the
    value of the [X-API-Key] header (None when absent) differs from
    [ADMIN_KEY]; the test comes before everything else, so the answer is
    then the same whatever the query arguments and the database, and
    nothing is executed. *)
Theorem balance_401_iff_key_differs (cfg : config) (env : environment)
    (req : request) (w : world) :
  (credential req <> ADMIN_KEY cfg
   <-> fst (api_wallet_balance cfg env req w)
       = Return (JObj [ ("ok", JBool false);
                        ("reason", JStr "authentication_required");
                        ("message",
                         JStr "Provide X-API-Key header with valid admin key") ],
                 401))
  /\ (credential req <> ADMIN_KEY cfg ->
      snd (api_wallet_balance cfg env req w) = w)
  /\ (forall body, fst (api_wallet_balance cfg env req w) = Return (body, 401) ->
                   credential req <> ADMIN_KEY cfg).
Proof.
  assert (Hno : credential req = ADMIN_KEY cfg ->
                forall body, fst (api_wallet_balance cfg env req w)
                             <> Return (body, 401)).
  { intros Heq body. apply key_eq_true_iff in Heq.
    destruct (string_dec (PyStr.strip (args_get (args req) "miner_id" "")) "")
      as [Hblank|Hid].
    - unfold api_wallet_balance, balance_is_admin. unfold credential in Heq.
      rewrite Heq, Hblank. simpl. discriminate.
    - rewrite (balance_run cfg env req w Heq Hid). cbv zeta.
      destruct (balance_of (conn env) _) as [[[v|]|]|e]; simpl; try discriminate;
        destruct (UNIT cfg =? 0); simpl; discriminate. }
  assert (Hyes : credential req <> ADMIN_KEY cfg ->
                 api_wallet_balance cfg env req w
                 = (Return (authentication_required, 401), w)).
  { intros Hne. apply balance_rejected. unfold balance_is_admin.
    destruct (key_eq _ _) eqn:H; [|reflexivity].
    apply key_eq_true_iff in H. contradiction. }
  split; [split|split].
  - intros Hne. now rewrite (Hyes Hne).
  - intros H Heq. exact (Hno Heq _ H).
  - intros Hne. now rewrite (Hyes Hne).
  - intros body H Heq. exact (Hno Heq _ H).
Qed.

(** X9: whatever the request, [api_wallet_balance] never touches the
    gauge and executes at most one statement, a balance query for a
    non-empty stripped miner_id; the only status codes it answers with are
    200, 400 and 401, and the statement was executed exactly when the
    answer is 200 or an exception. *)
Theorem balance_effects_bounded (cfg : config) (env : environment)
    (req : request) (w : world) :
  let r := fst (api_wallet_balance cfg env req w) in
  let w' := snd (api_wallet_balance cfg env req w) in
  let miner_id := PyStr.strip (args_get (args req) "miner_id" "") in
  epoch_gauge w' = epoch_gauge w
  /\ (forall body status, r = Return (body, status) ->
        (status = 200 /\ miner_id <> ""
         /\ executed w' = executed w ++ [SelectBalance miner_id])
        \/ ((status = 400 \/ status = 401) /\ w' = w))
  /\ (forall e, r = Raise e ->
        miner_id <> "" /\ executed w' = executed w ++ [SelectBalance miner_id]).
Proof.
  cbv zeta.
  destruct (balance_is_admin cfg req) eqn:Hchk.
  - destruct (string_dec (PyStr.strip (args_get (args req) "miner_id" "")) "")
      as [Hblank|Hid].
    + unfold api_wallet_balance. rewrite Hchk, Hblank. simpl.
      split; [reflexivity|]. split.
      * intros body status H. inversion H. right. auto.
      * intros e H. discriminate.
    + rewrite (balance_run cfg env req w Hchk Hid). cbv zeta.
      destruct (balance_of (conn env) _) as [[[v|]|]|e0]; simpl;
        try destruct (UNIT cfg =? 0); simpl;
        (split; [reflexivity|]); split;
        try (intros body status H; inversion H; left; auto);
        try (intros e H; auto); try discriminate.
  - rewrite (balance_rejected cfg env req w Hchk). simpl.
    split; [reflexivity|]. split.
    + intros body status H. inversion H. right. auto.
    + intros e H. discriminate.
Qed.

(** X10: white space around the miner_id argument is ignored: two
    requests with the same headers whose miner_id differ only by leading
    and trailing white space get the same outcome and leave the same
    world. *)
Theorem balance_ignores_padding (cfg : config) (env : environment)
    (req req' : request) (w : world) (p s q : string) :
  headers req' = headers req ->
  all_space p = true -> all_space q = true ->
  args_get (args req) "miner_id" "" = s ->
  args_get (args req') "miner_id" "" = (p ++ s ++ q)%string ->
  api_wallet_balance cfg env req' w = api_wallet_balance cfg env req w.
Proof.
  intros Hh Hp Hq Hs Hs'. unfold api_wallet_balance, balance_is_admin.
  rewrite Hh, Hs, Hs', (strip_padding p s q Hp Hq). reflexivity.
Qed.

(** X11: the failures of [api_wallet_balance]: it raises exactly when the
    header value equals [ADMIN_KEY], the stripped miner_id is not empty,
    and either the balance query raises (same exception), or the selected
    amount is NULL (TypeError from [int(None)]), or [UNIT] is zero
    (ZeroDivisionError). *)
Theorem balance_failures (cfg : config) (env : environment)
    (req : request) (w : world) (e : exn) :
  let miner_id := PyStr.strip (args_get (args req) "miner_id" "") in
  fst (api_wallet_balance cfg env req w) = Raise e
  <-> credential req = ADMIN_KEY cfg /\ miner_id <> ""
      /\ (balance_of (conn env) miner_id = Raise e
          \/ (balance_of (conn env) miner_id = Return (Some None) /\ e = TypeError)
          \/ ((balance_of (conn env) miner_id = Return None
               \/ exists v, balance_of (conn env) miner_id = Return (Some (Some v)))
              /\ UNIT cfg = 0 /\ e = ZeroDivisionError)).
Proof.
  cbv zeta.
  destruct (balance_is_admin cfg req) eqn:Hchk.
  - assert (Hkey : credential req = ADMIN_KEY cfg)
      by (apply key_eq_true_iff; exact Hchk).
    destruct (string_dec (PyStr.strip (args_get (args req) "miner_id" "")) "")
      as [Hblank|Hid].
    + unfold api_wallet_balance. rewrite Hchk, Hblank. simpl.
      split; [discriminate|]. intros (_ & H & _). contradiction.
    + rewrite (balance_run cfg env req w Hchk Hid). cbv zeta.
      destruct (balance_of (conn env) _) as [[[v|]|]|e0]; simpl.
      * destruct (Z.eqb_spec (UNIT cfg) 0) as [H0|H0]; simpl; split.
        -- intros H. inversion H.
           repeat split; auto; right; right; repeat split; eauto.
        -- intros (_ & _ & [H|[[H _]|(_ & _ & ->)]]); try discriminate; reflexivity.
        -- discriminate.
        -- intros (_ & _ & [H|[[H _]|(_ & H & _)]]); try discriminate; contradiction.
      * split.
        -- intros H. inversion H. repeat split; auto.
        -- intros (_ & _ & [H|[[_ ->]|([H|[v H]] & _)]]); try discriminate; reflexivity.
      * destruct (Z.eqb_spec (UNIT cfg) 0) as [H0|H0]; simpl; split.
        -- intros H. inversion H.
           repeat split; auto; right; right; repeat split; eauto.
        -- intros (_ & _ & [H|[[H _]|(_ & _ & ->)]]); try discriminate; reflexivity.
        -- discriminate.
        -- intros (_ & _ & [H|[[H _]|(_ & H & _)]]); try discriminate; contradiction.
      * split.
        -- intros H. inversion H. subst. repeat split; auto.
        -- intros (_ & _ & [H|[[H _]|([H|[v H]] & _)]]); try discriminate.
           inversion H. reflexivity.
  - rewrite (balance_rejected cfg env req w Hchk). simpl.
    split; [discriminate|]. intros (Hkey & _).
    apply key_eq_true_iff in Hkey. unfold balance_is_admin in Hchk.
    unfold credential in Hkey. congruence.
Qed.

End BalanceMoreFacts.

(** ** What the answers depend on *)

Module DependenceFacts.
Import Py Server Node Policy Observe PyFacts MinersFacts AccessFacts EpochFacts
  VisibilityFacts BalanceMoreFacts.

(** X12: the answers of the two endpoints with optional authentication
    depend on the request only through the value of its [X-API-Key]
    header: query arguments, other headers and a flag already present on
    the request (the wrapper overwrites it) change nothing. *)
Theorem optional_auth_reads_credential_only (cfg : config) (env : environment)
    (req req' : request) (w : world) :
  credential req' = credential req ->
  decorated cfg (api_miners cfg env) req' w = decorated cfg (api_miners cfg env) req w
  /\ get_epoch cfg env req' w = get_epoch cfg env req w.
Proof.
  unfold credential. intros Hc. split.
  - rewrite !decorated_api_miners_run. unfold decorator_is_admin.
    now rewrite Hc.
  - rewrite !get_epoch_run. unfold epoch_is_authenticated. now rewrite Hc.
Qed.

(** X13: how the three credential checks relate.  The check of the
    decorator and the check of [get_epoch] always agree; what they accept,
    [api_wallet_balance] accepts too; and the balance check accepts a
    request that the other two refuse in exactly two situations: no header
    and no configured secret, or an empty header and an empty secret. *)
Theorem credential_checks_compared (cfg : config) (req : request) :
  decorator_is_admin cfg req = epoch_is_authenticated cfg req
  /\ (decorator_is_admin cfg req = true -> balance_is_admin cfg req = true)
  /\ (balance_is_admin cfg req = true /\ decorator_is_admin cfg req = false
      <-> (credential req = None /\ ADMIN_KEY cfg = None)
          \/ (credential req = Some "" /\ ADMIN_KEY cfg = Some "")).
Proof.
  unfold decorator_is_admin, epoch_is_authenticated, balance_is_admin, credential.
  destruct (headers_get (headers req) "X-API-Key") as [[|c k]|];
    destruct (ADMIN_KEY cfg) as [[|d s]|]; simpl;
    (split; [reflexivity|]);
    (split; [intros H; first [exact H | discriminate H | reflexivity]|]);
    (split;
     [ intros [H1 H2];
       first [ congruence
             | left; split; reflexivity
             | right; split; reflexivity ]
     | intros [[H1 H2]|[H1 H2]];
       first [ discriminate | split; reflexivity ] ]).
Qed.

Lemma miner_anonymous_of_public_columns (cfg : config) (r r' : attest_row) :
  public_columns r' = public_columns r ->
  miner_anonymous cfg r' = miner_anonymous cfg r.
Proof.
  destruct r, r'. unfold public_columns, miner_anonymous, miner_data. simpl.
  intros H. inversion H. reflexivity.
Qed.

Lemma anonymous_entries_of_public_columns (cfg : config) (c c' : connection) :
  forall rows rows' : list attest_row,
    map public_columns rows' = map public_columns rows ->
    map (entry_of cfg c' false) rows' = map (entry_of cfg c false) rows.
Proof.
  induction rows as [|r rows IH]; intros [|r' rows'] H; simpl in *;
    try discriminate; [reflexivity|].
  pose proof (f_equal (hd (public_columns r)) H) as Hhd.
  pose proof (f_equal (@tl _) H) as Htl. cbn [hd tl] in Hhd, Htl.
  f_equal; [now apply miner_anonymous_of_public_columns | now apply IH].
Qed.

(** X14: an unauthenticated miners list carries nothing of the restricted
    data: over two databases whose selected rows agree on miner,
    timestamp, family and architecture, the outcome and the statements
    executed are the same, whatever the entropy scores and the attestation
    histories are. *)
Theorem anonymous_miners_independent_of_restricted (cfg : config)
    (env env' : environment) (req : request) (w : world)
    (rows rows' : list attest_row) :
  getattr_is_admin req false = false ->
  time_now env' = time_now env ->
  recent_attest (conn env) (time_now env - 3600) = Return rows ->
  recent_attest (conn env') (time_now env - 3600) = Return rows' ->
  map public_columns rows' = map public_columns rows ->
  api_miners cfg env' req w = api_miners cfg env req w.
Proof.
  intros Hflag Hclock Hrows Hrows' Hpub.
  rewrite !api_miners_run. cbv zeta.
  rewrite Hclock, Hrows, Hrows', Hflag.
  rewrite (anonymous_entries_of_public_columns cfg (conn env) (conn env')
             rows rows' Hpub).
  reflexivity.
Qed.

(** X15: an unauthenticated epoch answer carries nothing of the
    restricted data: when the enrolment count succeeds, the outcome and
    the world left behind are the same whatever the count and the reward
    pot are. *)
Theorem anonymous_epoch_independent_of_restricted (cfg : config)
    (env env' : environment) (req : request) (w : world)
    (pot : json) (n n' : Z) :
  epoch_is_authenticated cfg req = false ->
  current_slot env' = current_slot env ->
  enrolled_count (conn env) (slot_to_epoch cfg (current_slot env)) = Return n ->
  enrolled_count (conn env') (slot_to_epoch cfg (current_slot env)) = Return n' ->
  get_epoch (with_pot cfg pot) env' req w = get_epoch cfg env req w.
Proof.
  intros Hanon Hslot Hn Hn'. rewrite !get_epoch_run. cbv zeta.
  change (slot_to_epoch (with_pot cfg pot)) with (slot_to_epoch cfg).
  change (epoch_is_authenticated (with_pot cfg pot) req)
    with (epoch_is_authenticated cfg req).
  rewrite Hslot, Hn, Hn', Hanon.
  unfold epoch_anonymous. simpl. now rewrite Hslot.
Qed.

End DependenceFacts.

(** ** Letter case and missing values in the hardware classification *)

Module HardwareMoreFacts.
Import PyStr PyStrFacts Hardware.




(** X17: a null, an empty and an "unknown" family (or architecture) are
    the same for the label and for the multiplier: the entry of the
    weight table under the key "unknown" is the one used for rows without
    family or architecture. *)
Theorem missing_is_unknown (W : weights) (x y : option string) :
  In x [None; Some ""; Some "unknown"] ->
  In y [None; Some ""; Some "unknown"] ->
  forall z : option string,
    hw_type x z = hw_type y z /\ hw_type z x = hw_type z y
    /\ mult W x z = mult W y z /\ mult W z x = mult W z y
    /\ mult W x y = spec_multiplier W "unknown" "unknown".
Proof.
  intros Hx Hy z. simpl in Hx, Hy.
  destruct Hx as [<-|[<-|[<-|[]]]]; destruct Hy as [<-|[<-|[<-|[]]]];
    repeat split; try reflexivity; apply HardwareFacts.mult_fallback.
Qed.

End HardwareMoreFacts.

(** ** The handlers over a database made of lists *)

Module SqliteFacts.
Import Py Server Node Policy Observe Sqlite PyFacts MinersFacts EffectFacts.

Lemma insert_desc_perm (r : attest_row) (l : list attest_row) :
  Permutation (insert_desc r l) (r :: l).
Proof.
  induction l as [|x l IH]; simpl; [reflexivity|].
  destruct (ts_ok x <? ts_ok r); [reflexivity|].
  rewrite IH. apply perm_swap.
Qed.

Lemma order_desc_perm (l : list attest_row) : Permutation (order_desc l) l.
Proof.
  induction l as [|x l IH]; simpl; [reflexivity|].
  fold (order_desc l). rewrite insert_desc_perm. now constructor.
Qed.

Lemma insert_desc_sorted (r : attest_row) (l : list attest_row) :
  StronglySorted newest_first l -> StronglySorted newest_first (insert_desc r l).
Proof.
  induction l as [|x l IH]; intros Hs; simpl.
  - constructor; constructor.
  - inversion Hs as [|? ? Hl Hx]; subst.
    destruct (Z.ltb_spec (ts_ok x) (ts_ok r)) as [Hlt|Hge].
    + constructor; [exact Hs|]. constructor.
      * unfold newest_first. lia.
      * apply List.Forall_forall. intros y Hy.
        rewrite List.Forall_forall in Hx. specialize (Hx y Hy).
        unfold newest_first in *. lia.
    + constructor; [now apply IH|].
      eapply Permutation_Forall; [symmetry; apply insert_desc_perm|].
      constructor; [unfold newest_first; lia | exact Hx].
Qed.

Lemma order_desc_sorted (l : list attest_row) :
  StronglySorted newest_first (order_desc l).
Proof.
  induction l as [|x l IH]; simpl; [constructor|].
  fold (order_desc l). now apply insert_desc_sorted.
Qed.

(** X18: served from a database made of lists, the miners list holds
    exactly the rows of [miner_attest_recent] whose timestamp is later
    than one hour before now, each once, newest first; their timestamps
    are the last_attest fields of the answer, in that order. *)
Theorem miners_list_recent_newest_first (cfg : config) (s : store)
    (now slot : Z) (req : request) (w : world) :
  exists rows objs,
    fst (api_miners cfg (sqlite_env s now slot) req w) = Return (JArr objs, 200)
    /\ column "miner" objs = map (fun r => Some (JStr (miner r))) rows
    /\ column "last_attest" objs = map (fun r => Some (JInt (ts_ok r))) rows
    /\ Permutation rows
         (List.filter (fun r => now - 3600 <? ts_ok r) (miner_attest_recent s))
    /\ StronglySorted newest_first rows
    /\ Forall (fun r => now - 3600 < ts_ok r) rows.
Proof.
  rewrite api_miners_run. cbv zeta. cbn [conn sqlite_env time_now].
  cbn [recent_attest connect].
  exists (order_desc (List.filter (fun r => now - 3600 <? ts_ok r)
                        (miner_attest_recent s))).
  eexists. split; [reflexivity|].
  set (b := getattr_is_admin req false). unfold column. rewrite !map_map.
  split; [apply map_ext; intros r; apply entry_describes_row|].
  split; [apply map_ext; intros r; apply entry_describes_row|].
  split; [apply order_desc_perm|]. split; [apply order_desc_sorted|].
  eapply Permutation_Forall; [symmetry; apply order_desc_perm|].
  apply List.Forall_forall. intros r Hr. apply filter_In in Hr as [_ Hr].
  now apply Z.ltb_lt.
Qed.

Lemma min_ts_spec (l : list Z) (v : Z) :
  min_ts l = Some v -> In v l /\ forall t, In t l -> v <= t.
Proof.
  destruct l as [|x l]; simpl; [discriminate|].
  intros H. inversion H as [Hv]. clear H Hv.
  induction l as [|y l IH]; simpl.
  - split; [now left|]. intros t [<-|[]]. lia.
  - destruct IH as [Hin Hmin].
    destruct (Z.min_spec y (fold_right Z.min x l)) as [[Hlt ->]|[Hle ->]].
    + split; [right; now left|].
      intros t [<-|[<-|Ht]]; [ | lia | ].
      * specialize (Hmin x (or_introl eq_refl)). lia.
      * specialize (Hmin t (or_intror Ht)). lia.
    + split.
      * destruct Hin as [Hx|Hl]; [now left | right; now right].
      * intros t [<-|[<-|Ht]]; [ | lia | ].
        -- apply Hmin. now left.
        -- apply Hmin. now right.
Qed.

Lemma history_of_iff (h : list (string * Z)) (m : string) (t : Z) :
  In t (map snd (List.filter (fun e => String.eqb (fst e) m) h)) <-> In (m, t) h.
Proof.
  rewrite in_map_iff. split.
  - intros ([m' t'] & Ht & Hin). apply filter_In in Hin as [Hin Hm].
    simpl in *. apply String.eqb_eq in Hm. now subst.
  - intros Hin. exists (m, t). split; [reflexivity|].
    apply filter_In. split; [exact Hin|]. simpl. apply String.eqb_refl.
Qed.

Lemma field_first_attest (cfg : config) (c : connection) (r : attest_row) :
  field (miner_full cfg c r) "first_attest" = Some (first_attest_json c (miner r)).
Proof. reflexivity. Qed.

(** X19: served from a database made of lists, an authenticated miners
    list gives as first_attest of a miner the earliest timestamp of that
    miner in [miner_attest_history]; it is null only when the miner has no
    history, or when that earliest timestamp is 0. *)
Theorem first_attest_is_earliest (cfg : config) (s : store)
    (now slot : Z) (req : request) (w : world) :
  getattr_is_admin req false = true ->
  exists rows objs,
    fst (api_miners cfg (sqlite_env s now slot) req w) = Return (JArr objs, 200)
    /\ Forall2 (fun r o =>
                  (forall v, field o "first_attest" = Some (JInt v) ->
                             v <> 0 /\ In (miner r, v) (miner_attest_history s)
                             /\ forall t, In (miner r, t) (miner_attest_history s)
                                          -> v <= t)
                  /\ (field o "first_attest" = Some JNull ->
                      (forall t, ~ In (miner r, t) (miner_attest_history s))
                      \/ (In (miner r, 0) (miner_attest_history s)
                          /\ forall t, In (miner r, t) (miner_attest_history s)
                                       -> 0 <= t))
                  /\ (field o "first_attest" = Some JNull
                      \/ exists v, field o "first_attest" = Some (JInt v)))
         rows objs.
Proof.
  intros Hauth. rewrite api_miners_run. cbv zeta. rewrite Hauth.
  cbn [conn sqlite_env time_now]. cbn [recent_attest connect].
  exists (order_desc (List.filter (fun r => now - 3600 <? ts_ok r)
                        (miner_attest_recent s))).
  eexists. split; [reflexivity|].
  apply Forall2_map_self. intros r. unfold entry_of.
  rewrite field_first_attest. unfold first_attest_json.
  cbn [first_attest_of connect first_attest_value].
  set (l := map snd (List.filter (fun e => String.eqb (fst e) (miner r))
                       (miner_attest_history s))).
  destruct (min_ts l) as [t|] eqn:Hmin.
  - destruct (min_ts_spec l t Hmin) as [Hin Hle].
    apply history_of_iff in Hin.
    assert (Hle' : forall u, In (miner r, u) (miner_attest_history s) -> t <= u).
    { intros u Hu. apply Hle. now apply history_of_iff. }
    destruct (Z.eqb_spec t 0) as [->|Ht].
    + split; [intros v H; discriminate|]. split; [|now left].
      intros _. right. split; assumption.
    + split; [|split; [intros H; discriminate | right; eauto]].
      intros v H. inversion H. subst v. repeat split; assumption.
  - split; [intros v H; discriminate|]. split; [|now left].
    intros _. left. intros t Ht. apply history_of_iff in Ht. fold l in Ht.
    destruct l; [exact Ht | discriminate Hmin].
Qed.

End SqliteFacts.

(** ** The further properties at concrete inputs *)

Module MoreWitnesses.
Import Py Server Node Policy Hardware Observe Samples MoreSamples.

Lemma api_miners_objects_follow_rows_witness :
  recent_attest (conn sample_env) (time_now sample_env - 3600)
  = Return [bob_row; alice_row]
  /\ exists objs,
      fst (api_miners (sample_config None) sample_env (flagged_request true)
             fresh_world) = Return (JArr objs, 200)
      /\ column "miner" objs = [Some (JStr "bob"); Some (JStr "alice")]
      /\ column "last_attest" objs = [Some (JInt 3950); Some (JInt 3900)].
Proof.
  split; [vm_compute; reflexivity|].
  destruct (EffectFacts.api_miners_objects_follow_rows
              (sample_config None) sample_env (flagged_request true) fresh_world
              [bob_row; alice_row] ltac:(vm_compute; reflexivity))
    as (objs & Hrun & Hminer & Hlast & _).
  exists objs. split; [exact Hrun|]. split; [exact Hminer | exact Hlast].
Defined.

Lemma first_attest_reported_witness :
  (getattr_is_admin (flagged_request true) false = true
   /\ recent_attest (conn sample_env) (time_now sample_env - 3600)
      = Return [bob_row; alice_row])
  /\ exists objs,
      fst (api_miners (sample_config None) sample_env (flagged_request true)
             fresh_world) = Return (JArr objs, 200)
      /\ length objs = 2%nat.
Proof.
  split; [split; [reflexivity | vm_compute; reflexivity]|].
  destruct (EffectFacts.first_attest_reported
              (sample_config None) sample_env (flagged_request true) fresh_world
              [bob_row; alice_row] eq_refl ltac:(vm_compute; reflexivity))
    as (objs & Hrun & Hall).
  exists objs. split; [exact Hrun|].
  symmetry. exact (Forall2_length _ _ _ Hall).
Defined.

Lemma entropy_score_reported_witness :
  (getattr_is_admin (flagged_request true) false = true
   /\ recent_attest (conn sample_env) (time_now sample_env - 3600)
      = Return [bob_row; alice_row])
  /\ exists objs,
      fst (api_miners (sample_config None) sample_env (flagged_request true)
             fresh_world) = Return (JArr objs, 200)
      /\ length objs = 2%nat.
Proof.
  split; [split; [reflexivity | vm_compute; reflexivity]|].
  destruct (EffectFacts.entropy_score_reported
              (sample_config None) sample_env (flagged_request true) fresh_world
              [bob_row; alice_row] eq_refl ltac:(vm_compute; reflexivity))
    as (objs & Hrun & Hall).
  exists objs. split; [exact Hrun|].
  symmetry. exact (Forall2_length _ _ _ Hall).
Defined.

Lemma balance_ignores_padding_witness :
  let cfg := sample_config (Some "s3cret") in
  let p := (" " ++ nbsp)%string in
  let q := (em_space ++ " ")%string in
  let req := request_with_key "s3cret" [("miner_id", "alice")] in
  let req' := request_with_key "s3cret" [("miner_id", (p ++ "alice" ++ q)%string)] in
  (headers req' = headers req
   /\ all_space p = true /\ all_space q = true
   /\ args_get (args req) "miner_id" "" = "alice"
   /\ args_get (args req') "miner_id" "" = (p ++ "alice" ++ q)%string)
  /\ api_wallet_balance cfg sample_env req' fresh_world
     = api_wallet_balance cfg sample_env req fresh_world.
Proof.
  cbv zeta. split; [repeat split|].
  apply (BalanceMoreFacts.balance_ignores_padding _ _ _ _ _
           (" " ++ nbsp)%string "alice" (em_space ++ " ")%string);
    reflexivity.
Defined.

Lemma optional_auth_reads_credential_only_witness :
  let cfg := sample_config (Some "s3cret") in
  let req := request_with_key "s3cret" [] in
  let req' := noisy_request "s3cret" in
  credential req' = credential req
  /\ decorated cfg (api_miners cfg sample_env) req' fresh_world
     = decorated cfg (api_miners cfg sample_env) req fresh_world
  /\ get_epoch cfg sample_env req' fresh_world
     = get_epoch cfg sample_env req fresh_world.
Proof.
  cbv zeta. split; [reflexivity|].
  apply DependenceFacts.optional_auth_reads_credential_only. reflexivity.
Defined.

Lemma anonymous_miners_independent_of_restricted_witness :
  let cfg := sample_config (Some "s3cret") in
  let req := request_without_key [] in
  (getattr_is_admin req false = false
   /\ time_now other_env = time_now sample_env
   /\ recent_attest (conn sample_env) (time_now sample_env - 3600)
      = Return [bob_row; alice_row]
   /\ recent_attest (conn other_env) (time_now sample_env - 3600)
      = Return [bob_row; alice_row_other]
   /\ map public_columns [bob_row; alice_row_other]
      = map public_columns [bob_row; alice_row])
  /\ api_miners cfg other_env req fresh_world
     = api_miners cfg sample_env req fresh_world.
Proof.
  cbv zeta. split; [repeat split; vm_compute; reflexivity|].
  apply (DependenceFacts.anonymous_miners_independent_of_restricted
           _ _ _ _ _ [bob_row; alice_row] [bob_row; alice_row_other]);
    vm_compute; reflexivity.
Defined.

Lemma anonymous_epoch_independent_of_restricted_witness :
  let cfg := sample_config (Some "s3cret") in
  let req := request_with_key "guess" [] in
  (epoch_is_authenticated cfg req = false
   /\ current_slot other_env = current_slot sample_env
   /\ enrolled_count (conn sample_env) (slot_to_epoch cfg (current_slot sample_env))
      = Return 1
   /\ enrolled_count (conn other_env) (slot_to_epoch cfg (current_slot sample_env))
      = Return 2)
  /\ get_epoch (with_pot cfg JNull) other_env req fresh_world
     = get_epoch cfg sample_env req fresh_world.
Proof.
  cbv zeta. split; [repeat split; vm_compute; reflexivity|].
  apply (DependenceFacts.anonymous_epoch_independent_of_restricted
           _ _ _ _ _ JNull 1 2);
    vm_compute; reflexivity.
Defined.


Lemma missing_is_unknown_witness :
  (In (None : option string) [None; Some ""; Some "unknown"]
   /\ In (Some "") [None; Some ""; Some "unknown"])
  /\ hw_type None (Some "G4") = hw_type (Some "") (Some "G4")
  /\ mult sample_weights (Some "PowerPC") None
     = mult sample_weights (Some "PowerPC") (Some "").
Proof.
  split; [split; [left; reflexivity | right; left; reflexivity]|].
  destruct (HardwareMoreFacts.missing_is_unknown sample_weights None (Some "")
              ltac:(left; reflexivity) ltac:(right; left; reflexivity)
              (Some "G4")) as (H1 & _).
  destruct (HardwareMoreFacts.missing_is_unknown sample_weights None (Some "")
              ltac:(left; reflexivity) ltac:(right; left; reflexivity)
              (Some "PowerPC")) as (_ & _ & _ & H4 & _).
  split; [exact H1 | exact H4].
Defined.

Lemma first_attest_is_earliest_witness :
  getattr_is_admin (flagged_request true) false = true
  /\ exists (rows : list attest_row) (objs : list json),
      fst (api_miners (sample_config None) (sqlite_env sample_store 4000 1010)
             (flagged_request true) fresh_world) = Return (JArr objs, 200)
      /\ length objs = length rows.
Proof.
  split; [reflexivity|].
  destruct (SqliteFacts.first_attest_is_earliest
              (sample_config None) sample_store 4000 1010 (flagged_request true)
              fresh_world eq_refl)
    as (rows & objs & Hrun & Hall).
  exists rows, objs. split; [exact Hrun|].
  symmetry. exact (Forall2_length _ _ _ Hall).
Defined.

End MoreWitnesses.
